(** * TimeTravel: the temporal navigation controller of ui-components

    A shallow embedding of the [TimeTravel] component
    ([src/unnamed/part_005]): the zoom bounds, the timestamp and
    duration clamps, the sticky live-mode heuristic, the two debounced
    channels and every handler of the component, followed by the
    properties of the navigation state machine.

    Conventions.
    - A JavaScript number is an exact rational ([Q]); [NaN], infinities and
      binary rounding are not modelled.  The literal [0.1] is [1 # 10].
    - A timestamp is the string the code stores and compares ([<], [>],
      [!==] on strings are [String.ltb] and [String.eqb]; timestamps are
      ASCII, where bytes and UTF-16 code units order alike).
      Division by zero is not modelled either ([Q] gives 0).
    - A value that may be [null] is an [option]; an empty string is falsy.
    - Wall-clock time ([Date.now()], in milliseconds) is an input of every
      transition. *)

From Stdlib Require Import ZArith QArith Qround Lqa Bool List Lia.
From Stdlib Require Import Sorted Permutation.
From Stdlib Require OrderedTypeEx.
From Stdlib Require Import Ascii String.
Import ListNotations.

Local Open Scope Z_scope.

(** ** ISO-8601 timestamps in UTC, second precision

    The strings [moment(...).utc().format()] prints, such as
    ["2020-01-11T00:00:00Z"], with the proleptic Gregorian calendar; a
    timestamp that is read may carry a fraction of a second, which printing
    drops.  This instance of the timeline utilities is what the concrete
    scenarios run on. *)
Module Iso.

Definition days_from_civil (y m d : Z) : Z :=
  let y' := if m <=? 2 then y - 1 else y in
  let era := y' / 400 in
  let yoe := y' - era * 400 in
  let mp := if m <=? 2 then m + 9 else m - 3 in
  let doy := (153 * mp + 2) / 5 + d - 1 in
  let doe := yoe * 365 + yoe / 4 - yoe / 100 + doy in
  era * 146097 + doe - 719468.

Definition civil_from_days (z : Z) : Z * Z * Z :=
  let z := z + 719468 in
  let era := z / 146097 in
  let doe := z - era * 146097 in
  let yoe := (doe - doe / 1460 + doe / 36524 - doe / 146096) / 365 in
  let doy := doe - (365 * yoe + yoe / 4 - yoe / 100) in
  let mp := (5 * doy + 2) / 153 in
  let d := doy - (153 * mp + 2) / 5 + 1 in
  let m := if mp <? 10 then mp + 3 else mp - 9 in
  let y := yoe + era * 400 in
  (if m <=? 2 then y + 1 else y, m, d).

Definition digit (c : ascii) : option Z :=
  let n := Z.of_N (N_of_ascii c) in
  if (48 <=? n) && (n <=? 57) then Some (n - 48) else None.

Fixpoint digits (s : string) (acc : Z) : option Z :=
  match s with
  | EmptyString => Some acc
  | String c r =>
      match digit c with
      | Some d => digits r (10 * acc + d)
      | None => None
      end
  end.

Definition field (s : string) (i n : nat) : option Z :=
  digits (substring i n s) 0.

Definition sep (s : string) (i : nat) (c : string) : bool :=
  String.eqb (substring i 1 s) c.

Definition well_shaped (s : string) : bool :=
  Nat.leb 20 (String.length s)
  && sep s 4 "-" && sep s 7 "-" && sep s 10 "T"
  && sep s 13 ":" && sep s 16 ":".

(** What follows the seconds: ["Z"], or a fraction of a second and ["Z"]
    (as in ["2020-01-06T00:00:00.500Z"]).  The result is the fraction in
    milliseconds, truncated. *)
Definition fraction (tail : string) : option Z :=
  match tail with
  | String "Z"%char EmptyString => Some 0
  | String "."%char rest =>
      let n := String.length rest in
      if Nat.leb 2 n && String.eqb (substring (n - 1) 1 rest) "Z" then
        match digits (substring 0 (n - 1) rest) 0 with
        | Some f => Some (f * 1000 / 10 ^ Z.of_nat (n - 1))
        | None => None
        end
      else None
  | _ => None
  end.

(** Milliseconds since the Unix epoch of a timestamp in UTC. *)
Definition parse (s : string) : option Z :=
  if well_shaped s then
    match field s 0 4, field s 5 2, field s 8 2,
          field s 11 2, field s 14 2, field s 17 2,
          fraction (substring 19 (String.length s - 19) s) with
    | Some y, Some mo, Some d, Some h, Some mi, Some se, Some ms =>
        Some ((((days_from_civil y mo d * 24 + h) * 60 + mi) * 60 + se) * 1000 + ms)
    | _, _, _, _, _, _, _ => None
    end
  else None.

Definition digit_char (d : Z) : ascii := ascii_of_N (Z.to_N (48 + d mod 10)).

Definition two (n : Z) : string :=
  String (digit_char (n / 10)) (String (digit_char n) EmptyString).

Definition four (n : Z) : string :=
  String (digit_char (n / 1000)) (String (digit_char (n / 100)) (two n)).

(** The printed form of an instant, truncated to the start of its second. *)
Definition print (ms : Z) : string :=
  let secs := ms / 1000 in
  let days := secs / 86400 in
  let sod := secs mod 86400 in
  let '(y, m, d) := civil_from_days days in
  (four y ++ "-" ++ two m ++ "-" ++ two d ++ "T"
   ++ two (sod / 3600) ++ ":" ++ two (sod / 60 mod 60) ++ ":" ++ two (sod mod 60)
   ++ "Z")%string.

End Iso.

(** ** The timeline utilities and constants the component imports

    [formattedTimestamp] and [getTimeScale] ([utils/timeline]) and
    [MAX_TICK_SPACING_PX] ([constants/timeline]) are imported by the
    component but their files are not part of the sources at hand, and
    [moment] is a library; the component is parameterised by them.
    - [formattedTimestamp clock None] is the call [formattedTimestamp()]
      made when the wall clock reads [clock]; [formattedTimestamp clock
      (Some raw)] is [formattedTimestamp(raw)].
    - [moment s] is the instant [moment(s)] denotes, in milliseconds.
    - [MAX_TICK_SPACING_PX] is the constant of that name. *)
Class TimelineUtils := {
  formattedTimestamp : Z -> option string -> string;
  moment : string -> Z;
  MAX_TICK_SPACING_PX : Q;
}.

(** JavaScript truthiness of a string prop. *)
Definition truthy (o : option string) : bool :=
  match o with
  | Some s => negb (String.eqb s "")
  | None => false
  end.

(** The ISO instance: timestamps are printed in UTC at second precision, a
    falsy argument stands for the current time.  No property below depends
    on the value given to [MAX_TICK_SPACING_PX]. *)
Definition isoFormattedTimestamp (clock : Z) (raw : option string) : string :=
  match raw with
  | Some s =>
      if String.eqb s "" then Iso.print clock
      else match Iso.parse s with
           | Some ms => Iso.print ms
           | None => "Invalid date"
           end
  | None => Iso.print clock
  end.

Definition isoMoment (s : string) : Z :=
  match Iso.parse s with
  | Some ms => ms
  | None => 0
  end.

#[export] Instance isoUtils : TimelineUtils := {
  formattedTimestamp := isoFormattedTimestamp;
  moment := isoMoment;
  MAX_TICK_SPACING_PX := 415;
}.

(** ** lodash: [clamp] and [debounce] *)

(** [baseClamp]: first the upper bound, then the lower one. *)
Definition clamp (number lower upper : Q) : Q :=
  let number := if Qle_bool number upper then number else upper in
  if Qle_bool lower number then number else lower.

(** [debounce(func, wait)] with the default options (trailing edge only).
    [lastArgs] and [lastCallTime] are the closure variables of the same
    name, [timerId] tells whether a timeout is armed. *)
Module Debounce.

Record t (A : Type) := Make {
  lastArgs : option A;
  lastCallTime : option Z;
  timerId : bool;
}.
Arguments Make {A}.
Arguments lastArgs {A}.
Arguments lastCallTime {A}.
Arguments timerId {A}.

Definition create {A : Type} : t A := Make None None false.

Definition shouldInvoke {A : Type} (wait time : Z) (d : t A) : bool :=
  match lastCallTime d with
  | None => true
  | Some last => (wait <=? time - last) || (time - last <? 0)
  end.

(** [debounced(args)]: remember the arguments and the time of the call;
    a timeout is armed afterwards in every case. *)
Definition call {A : Type} (time : Z) (args : A) (d : t A) : t A :=
  Make (Some args) (Some time) true.

(** [debounced.cancel()]. *)
Definition cancel {A : Type} (d : t A) : t A := Make None None false.

(** [timerExpired]: the timeout callback runs at [time].  It invokes
    [func] with the last arguments when the wait has passed since the
    last call, and re-arms the timeout for the remaining wait otherwise.
    The second component is the argument [func] is invoked with. *)
Definition timerExpired {A : Type} (wait time : Z) (d : t A) : t A * option A :=
  if timerId d then
    if shouldInvoke wait time d then
      (Make None (lastCallTime d) false, lastArgs d)
    else (d, None)
  else (d, None).

End Debounce.

(** [moment.duration(ms).get(period)]: the components of a non-negative
    duration after moment's [bubble]. *)
Module MomentDuration.

Definition daysToMonths (days : Z) : Q := inject_Z (days * 4800) / 146097.
Definition monthsToDays (months : Z) : Q := inject_Z (months * 146097) / 4800.

Definition get (ms : Q) (period : string) : Z :=
  let seconds := Qfloor (ms / 1000) in
  let minutes := seconds / 60 in
  let hours := minutes / 60 in
  let days := hours / 24 in
  let monthsFromDays := Qfloor (daysToMonths days) in
  let days := days - Qceiling (monthsToDays monthsFromDays) in
  if String.eqb period "years" then monthsFromDays / 12
  else if String.eqb period "months" then monthsFromDays mod 12
  else if String.eqb period "weeks" then days / 7
  else if String.eqb period "days" then days
  else if String.eqb period "hours" then hours mod 24
  else if String.eqb period "minutes" then minutes mod 60
  else if String.eqb period "seconds" then seconds mod 60
  else 0.

End MomentDuration.

(** ** The component: props, state, instance fields, callbacks *)

Record Props := {
  timestamp : option string;
  earliestTimestamp : option string;
  hasLiveMode : bool;
  showingLiveProp : bool;
  hasRangeSelector : bool;
  rangeMsProp : Q;
}.

(** [TimeTravel.defaultProps], for a given [timestamp]. *)
Definition defaultProps (ts : option string) : Props := {|
  timestamp := ts;
  earliestTimestamp := Some "2014-01-01T00:00:00Z"%string;
  hasLiveMode := false;
  showingLiveProp := true;
  hasRangeSelector := false;
  rangeMsProp := 3600000;
|}.

(** [this.state]. *)
Record State := {
  timestampNow : string;
  focusedTimestamp : string;
  durationMsPerPixel : Q;
  showingLive : bool;
  rangeMs : Q;
  timelineWidthPx : Q;
}.

(** The component instance: [this.props], [this.state], the two debounced
    functions and [this.timer] (whether the interval is running). *)
Record Component := {
  props : Props;
  state : State;
  delayedReportZoom : Debounce.t unit;
  delayedOnChangeTimestamp : Debounce.t string;
  timer : bool;
}.

(** A call of one of the callback props (each is taken to be a function
    the parent passed). *)
Inductive Callback :=
| onChangeTimestamp (ts : string)
| onChangeRange (rangeMs : Q)
| onChangeLiveMode (showingLive : bool)
| onTimelineZoom (zoomedPeriod : option string)
| onTimestampInputEdit
| onTimelinePanButtonClick
| onTimelineLabelClick
| onTimelinePan.

(** ** Handlers run in a reader-state-writer monad: they read the wall
    clock, update the instance and call callbacks in order.

    [setState] is applied at once.  No handler below reads a field of
    [this.state] after having set it, so React's batching of updates
    inside an event handler gives the same final state. *)
Definition M (A : Type) : Type := Z -> Component -> A * Component * list Callback.

Definition ret {A : Type} (a : A) : M A := fun _ c => (a, c, []).

Definition bind {A B : Type} (m : M A) (k : A -> M B) : M B :=
  fun clock c =>
    let '(a, c1, out1) := m clock c in
    let '(b, c2, out2) := k a clock c1 in
    (b, c2, out1 ++ out2).

Notation "x <- m ;; k" := (bind m (fun x => k))
  (at level 61, m at next level, right associativity).
Notation "m ;; k" := (bind m (fun _ => k))
  (at level 61, right associativity).

Definition dateNow : M Z := fun clock c => (clock, c, []).
Definition getState : M State := fun _ c => (state c, c, []).
Definition getProps : M Props := fun _ c => (props c, c, []).
Definition getChange : M (Debounce.t string) :=
  fun _ c => (delayedOnChangeTimestamp c, c, []).
Definition getZoom : M (Debounce.t unit) :=
  fun _ c => (delayedReportZoom c, c, []).

(** Assignments to the fields of the instance. *)
Definition with_state (v : State) (c : Component) : Component :=
  {| props := props c; state := v;
     delayedReportZoom := delayedReportZoom c;
     delayedOnChangeTimestamp := delayedOnChangeTimestamp c;
     timer := timer c |}.

Definition with_change (d : Debounce.t string) (c : Component) : Component :=
  {| props := props c; state := state c;
     delayedReportZoom := delayedReportZoom c;
     delayedOnChangeTimestamp := d;
     timer := timer c |}.

Definition with_zoom (d : Debounce.t unit) (c : Component) : Component :=
  {| props := props c; state := state c;
     delayedReportZoom := d;
     delayedOnChangeTimestamp := delayedOnChangeTimestamp c;
     timer := timer c |}.

Definition with_timer (b : bool) (c : Component) : Component :=
  {| props := props c; state := state c;
     delayedReportZoom := delayedReportZoom c;
     delayedOnChangeTimestamp := delayedOnChangeTimestamp c;
     timer := b |}.

Definition with_props (p : Props) (c : Component) : Component :=
  {| props := p; state := state c;
     delayedReportZoom := delayedReportZoom c;
     delayedOnChangeTimestamp := delayedOnChangeTimestamp c;
     timer := timer c |}.

Definition setState (f : State -> State) : M unit :=
  fun _ c => (tt, with_state (f (state c)) c, []).
Definition putChange (d : Debounce.t string) : M unit :=
  fun _ c => (tt, with_change d c, []).
Definition putZoom (d : Debounce.t unit) : M unit :=
  fun _ c => (tt, with_zoom d c, []).
Definition putTimer (b : bool) : M unit :=
  fun _ c => (tt, with_timer b c, []).
Definition putProps (p : Props) : M unit :=
  fun _ c => (tt, with_props p c, []).

Definition callback (cb : Callback) : M unit := fun _ c => (tt, c, [cb]).

Definition when (b : bool) (m : M unit) : M unit := if b then m else ret tt.

(** The partial states handed to [setState]. *)
Definition set_timestampNow (v : string) (s : State) : State :=
  {| timestampNow := v; focusedTimestamp := focusedTimestamp s;
     durationMsPerPixel := durationMsPerPixel s; showingLive := showingLive s;
     rangeMs := rangeMs s; timelineWidthPx := timelineWidthPx s |}.

Definition set_focusedTimestamp (v : string) (s : State) : State :=
  {| timestampNow := timestampNow s; focusedTimestamp := v;
     durationMsPerPixel := durationMsPerPixel s; showingLive := showingLive s;
     rangeMs := rangeMs s; timelineWidthPx := timelineWidthPx s |}.

Definition set_durationMsPerPixel (v : Q) (s : State) : State :=
  {| timestampNow := timestampNow s; focusedTimestamp := focusedTimestamp s;
     durationMsPerPixel := v; showingLive := showingLive s;
     rangeMs := rangeMs s; timelineWidthPx := timelineWidthPx s |}.

Definition set_showingLive (v : bool) (s : State) : State :=
  {| timestampNow := timestampNow s; focusedTimestamp := focusedTimestamp s;
     durationMsPerPixel := durationMsPerPixel s; showingLive := v;
     rangeMs := rangeMs s; timelineWidthPx := timelineWidthPx s |}.

Definition set_rangeMs (v : Q) (s : State) : State :=
  {| timestampNow := timestampNow s; focusedTimestamp := focusedTimestamp s;
     durationMsPerPixel := durationMsPerPixel s; showingLive := showingLive s;
     rangeMs := v; timelineWidthPx := timelineWidthPx s |}.

Definition set_timelineWidthPx (v : Q) (s : State) : State :=
  {| timestampNow := timestampNow s; focusedTimestamp := focusedTimestamp s;
     durationMsPerPixel := durationMsPerPixel s; showingLive := showingLive s;
     rangeMs := rangeMs s; timelineWidthPx := v |}.

(** JavaScript [x < y] on numbers. *)
Definition Qltb (x y : Q) : bool := negb (Qle_bool y x).

Section TimeTravel.

Context {U : TimelineUtils}.

(** [moment(null)] and [moment('')] are the same invalid date. *)
Definition momentOf (o : option string) : Z :=
  moment (match o with Some s => s | None => EmptyString end).

(** *** Zoom bounds *)

Definition availableTimelineDurationMs (clock : Z) (earliestTimestamp : option string) : Z :=
  let earliestMomentTimestamp := momentOf earliestTimestamp in
  let currentMomentTimestamp := moment (formattedTimestamp clock None) in
  currentMomentTimestamp - earliestMomentTimestamp.

Definition minDurationMsPerTimelinePx : Q := 500.

Definition maxDurationMsPerTimelinePx (clock : Z) (earliestTimestamp : option string) : Q :=
  let durationMsLowerBound := minDurationMsPerTimelinePx in
  let durationMsUpperBound := (3 * 86400000)%Q in
  let durationMs := (inject_Z (availableTimelineDurationMs clock earliestTimestamp) / 400)%Q in
  clamp durationMs durationMsLowerBound durationMsUpperBound.

Definition initialDurationMsPerTimelinePx (clock : Z) (earliestTimestamp : option string) : Q :=
  let durationMsLowerBound := minDurationMsPerTimelinePx in
  let durationMsUpperBound := 60000%Q in
  let durationMs := (maxDurationMsPerTimelinePx clock earliestTimestamp * (1 # 10))%Q in
  clamp durationMs durationMsLowerBound durationMsUpperBound.

(** *** Lifecycle *)

Definition constructor (clock : Z) (p : Props) : Component := {|
  props := p;
  state := {|
    timestampNow := formattedTimestamp clock None;
    focusedTimestamp := formattedTimestamp clock (timestamp p);
    durationMsPerPixel := initialDurationMsPerTimelinePx clock (earliestTimestamp p);
    showingLive := showingLiveProp p;
    rangeMs := rangeMsProp p;
    timelineWidthPx := 1;
  |};
  delayedReportZoom := Debounce.create;
  delayedOnChangeTimestamp := Debounce.create;
  timer := false;
|}.

(** [componentDidMount] starts the interval; [tick] is its callback. *)
Definition componentDidMount : M unit := putTimer true.

Definition tick : M unit :=
  clock <- dateNow ;;
  let timestampNow := formattedTimestamp clock None in
  setState (set_timestampNow timestampNow) ;;
  p <- getProps ;;
  s <- getState ;;
  when (hasLiveMode p && showingLive s)
    (setState (set_focusedTimestamp timestampNow)).

Definition componentWillReceiveProps (nextProps : Props) : M unit :=
  p <- getProps ;;
  if hasLiveMode p && showingLiveProp nextProps then ret tt
  else if negb (showingLiveProp nextProps) && showingLiveProp p then ret tt
  else
    when (truthy (timestamp nextProps))
      (clock <- dateNow ;;
       setState (fun s =>
         set_rangeMs (rangeMsProp nextProps)
           (set_focusedTimestamp (formattedTimestamp clock (timestamp nextProps)) s))).

Definition componentWillUnmount : M unit := putTimer false.

(** *** Clamps and the sticky live-mode heuristic *)

Definition clampedTimestamp (clock : Z) (p : Props) (s : State) (rawTimestamp : string) : string :=
  let timestamp := formattedTimestamp clock (Some rawTimestamp) in
  let startTimestamp := earliestTimestamp p in
  let endTimestamp := timestampNow s in
  let timestamp :=
    match startTimestamp with
    | Some start =>
        if truthy startTimestamp && String.ltb timestamp start then start else timestamp
    | None => timestamp
    end in
  let timestamp :=
    if negb (String.eqb endTimestamp "") && String.ltb endTimestamp timestamp
    then endTimestamp else timestamp in
  timestamp.

Definition clampedDuration (clock : Z) (p : Props) (duration : Q) : Q :=
  let minDurationMs := minDurationMsPerTimelinePx in
  let maxDurationMs := maxDurationMsPerTimelinePx clock (earliestTimestamp p) in
  clamp duration minDurationMs maxDurationMs.

(** Modelled from the spec: [getTimeScale] of [utils/timeline], which is
    not among the sources.  The spec gives the scale as
    [pixelOffset(t) = (t - focusedTimestamp) / durationMsPerPixel]. *)
Definition getTimeScale (s : State) (t : Z) : Q :=
  (inject_Z (t - moment (focusedTimestamp s)) / durationMsPerPixel s)%Q.

(** [nextState] is the partial state merged over [this.state]. *)
Definition shouldStickySwitchToLiveMode (p : Props) (s : State) (nextState : State -> State) : bool :=
  let timeScale := getTimeScale (nextState s) in
  let timestampCloseToNow := Qltb (timeScale (moment (timestampNow s))) 10 in
  timestampCloseToNow && hasLiveMode p && negb (showingLive s).

(** *** Handlers *)

Definition setFocusedTimestamp (ts : string) : M unit :=
  clock <- dateNow ;;
  p <- getProps ;;
  s <- getState ;;
  let focused := clampedTimestamp clock p s ts in
  when (negb (String.eqb focused (focusedTimestamp s)))
    (d <- getChange ;;
     putChange (Debounce.cancel d) ;;
     callback (onChangeTimestamp focused) ;;
     setState (set_focusedTimestamp focused)).

Definition handleRangeChange (range : Q) : M unit :=
  clock <- dateNow ;;
  p <- getProps ;;
  s <- getState ;;
  let timelineThird := (timelineWidthPx s / 3)%Q in
  let duration := clampedDuration clock p (range / timelineThird)%Q in
  setState (fun s => set_durationMsPerPixel duration (set_rangeMs range s)) ;;
  callback (onChangeRange range).

Definition handleInputChange (ts : string) : M unit :=
  setFocusedTimestamp ts ;;
  callback onTimestampInputEdit.

Definition handleTimelineJump (ts : string) : M unit :=
  setState (set_showingLive false) ;;
  setFocusedTimestamp ts ;;
  callback onTimelineLabelClick.

Definition handleTimelinePanButtonClick (ts : string) : M unit :=
  p <- getProps ;;
  s <- getState ;;
  (if shouldStickySwitchToLiveMode p s (set_focusedTimestamp ts) then
     setState (set_showingLive true) ;;
     setFocusedTimestamp (timestampNow s)
   else
     setState (set_showingLive false) ;;
     setFocusedTimestamp ts) ;;
  callback onTimelinePanButtonClick.

Definition handleTimelineZoom (duration : Q) : M unit :=
  clock <- dateNow ;;
  p <- getProps ;;
  let duration := clampedDuration clock p duration in
  setState (set_durationMsPerPixel duration) ;;
  d <- getZoom ;;
  putZoom (Debounce.call clock tt d).

Definition handleTimelinePan (ts : string) : M unit :=
  clock <- dateNow ;;
  p <- getProps ;;
  s <- getState ;;
  let focused := clampedTimestamp clock p s ts in
  setState (fun s => set_focusedTimestamp focused (set_showingLive false s)) ;;
  d <- getChange ;;
  putChange (Debounce.call clock focused d).

Definition handleTimelineRelease : M unit :=
  p <- getProps ;;
  s <- getState ;;
  when (shouldStickySwitchToLiveMode p s (fun s => s))
    (setState (set_showingLive true) ;;
     setFocusedTimestamp (timestampNow s)) ;;
  callback onTimelinePan.

Definition handleTimelineResize (width : Q) : M unit :=
  setState (set_timelineWidthPx width).

Definition handleLiveModeToggle (live : bool) : M unit :=
  setState (set_showingLive live) ;;
  s <- getState ;;
  when live (setState (set_focusedTimestamp (timestampNow s))) ;;
  callback (onChangeLiveMode live).

Definition reportZoom : M unit :=
  s <- getState ;;
  let periods := ["years"; "months"; "weeks"; "days"; "hours"; "minutes"; "seconds"]%string in
  let momentDuration := (durationMsPerPixel s * MAX_TICK_SPACING_PX)%Q in
  let zoomedPeriod :=
    find (fun period => negb (MomentDuration.get momentDuration period =? 0)) periods in
  callback (onTimelineZoom zoomedPeriod).

(** The timeouts of the two debounced functions
    ([debounce(reportZoom, 5000)], [debounce(onChangeTimestamp, 500)]). *)
Definition zoomTimerExpired : M unit :=
  clock <- dateNow ;;
  d <- getZoom ;;
  let '(d', fire) := Debounce.timerExpired 5000 clock d in
  putZoom d' ;;
  match fire with
  | Some _ => reportZoom
  | None => ret tt
  end.

Definition changeTimerExpired : M unit :=
  clock <- dateNow ;;
  d <- getChange ;;
  let '(d', fire) := Debounce.timerExpired 500 clock d in
  putChange d' ;;
  match fire with
  | Some ts => callback (onChangeTimestamp ts)
  | None => ret tt
  end.

End TimeTravel.

(** ** The navigation state machine

    One event is one handler run to completion at a wall-clock reading.
    The configuration props ([earliestTimestamp], [hasLiveMode],
    [hasRangeSelector]) stay as they are during a session; the parent may
    push new [timestamp], [rangeMs] and [showingLive] props.  The events
    are the handlers [render] hands to the child components; [render]
    mounts the live-mode toggle only when [hasLiveMode] is set and the range
    selector only when [hasRangeSelector] is set, the handlers themselves
    do not check. *)
Inductive Event :=
| Tick                                    (* the interval callback *)
| ReceiveProps (ts : option string) (range : Q) (live : bool)
| Unmount
| Pan (ts : string)                       (* handleTimelinePan *)
| PanRelease                              (* handleTimelineRelease *)
| Zoom (duration : Q)                     (* handleTimelineZoom *)
| Jump (ts : string)                      (* handleTimelineJump *)
| PanButton (ts : string)                 (* handleTimelinePanButtonClick *)
| SetRange (range : Q)                    (* handleRangeChange *)
| InputEdit (ts : string)                 (* handleInputChange *)
| ToggleLive (live : bool)                (* handleLiveModeToggle *)
| Resize (width : Q)                      (* handleTimelineResize *)
| ChangeTimerExpired                      (* timeout of delayedOnChangeTimestamp *)
| ZoomTimerExpired.                       (* timeout of delayedReportZoom *)

Section Machine.

Context {U : TimelineUtils}.

Definition pushedProps (p : Props) (ts : option string) (range : Q) (live : bool) : Props := {|
  timestamp := ts;
  earliestTimestamp := earliestTimestamp p;
  hasLiveMode := hasLiveMode p;
  showingLiveProp := live;
  hasRangeSelector := hasRangeSelector p;
  rangeMsProp := range;
|}.

Definition handler (e : Event) : M unit :=
  match e with
  | Tick => fun clock c => when (timer c) tick clock c
  | ReceiveProps ts range live =>
      p <- getProps ;;
      let nextProps := pushedProps p ts range live in
      componentWillReceiveProps nextProps ;;
      putProps nextProps
  | Unmount => componentWillUnmount
  | Pan ts => handleTimelinePan ts
  | PanRelease => handleTimelineRelease
  | Zoom duration => handleTimelineZoom duration
  | Jump ts => handleTimelineJump ts
  | PanButton ts => handleTimelinePanButtonClick ts
  | SetRange range => handleRangeChange range
  | InputEdit ts => handleInputChange ts
  | ToggleLive live => handleLiveModeToggle live
  | Resize width => handleTimelineResize width
  | ChangeTimerExpired => changeTimerExpired
  | ZoomTimerExpired => zoomTimerExpired
  end.

(** The instance and the callbacks made, after [e] is handled at [clock]. *)
Definition step (clock : Z) (e : Event) (c : Component) : Component * list Callback :=
  let '(_, c', out) := handler e clock c in (c', out).

Fixpoint run (trace : list (Z * Event)) (c : Component) : Component * list Callback :=
  match trace with
  | [] => (c, [])
  | (clock, e) :: rest =>
      let '(c1, out1) := step clock e c in
      let '(c2, out2) := run rest c1 in
      (c2, out1 ++ out2)
  end.

(** A session starts with the constructor followed by [componentDidMount]. *)
Definition mount (clock : Z) (p : Props) : Component :=
  let '(_, c, _) := componentDidMount clock (constructor clock p) in c.

(** The timeout of [delayedOnChangeTimestamp] running at each of [times]. *)
Definition expiries (times : list Z) : list (Z * Event) :=
  map (fun t => (t, ChangeTimerExpired)) times.

(** The arguments of the [onChangeTimestamp] calls among [out]. *)
Fixpoint changes (out : list Callback) : list string :=
  match out with
  | [] => []
  | onChangeTimestamp ts :: rest => ts :: changes rest
  | _ :: rest => changes rest
  end.

End Machine.

(** The session the scenarios below run on: history from 1 January 2020,
    mounted on 11 January 2020 at 00:00:00 UTC, focus on 5 January. *)
Definition jan11 : Z := 1578700800000.

Definition scenarioProps (live showing : bool) : Props := {|
  timestamp := Some "2020-01-05T00:00:00Z"%string;
  earliestTimestamp := Some "2020-01-01T00:00:00Z"%string;
  hasLiveMode := live;
  showingLiveProp := showing;
  hasRangeSelector := false;
  rangeMsProp := 3600000;
|}.

Definition scenario (live showing : bool) : Component :=
  mount jan11 (scenarioProps live showing).

(** The default props with the same focus: live mode is not supported and
    the [showingLive] prop is true. *)
Definition defaultSession : Component :=
  mount jan11 (defaultProps (Some "2020-01-05T00:00:00Z"%string)).

(** A pan to 6 January, 100 ms after mounting: its notification is pending. *)
Definition jan06 : string := "2020-01-06T00:00:00Z".

Definition afterPan : Component :=
  fst (step (jan11 + 100) (Pan jan06) (scenario true false)).

(** ... followed 100 ms later by [toggleLive(true)], or by a jump to the
    same timestamp. *)
Definition afterPanToggle : Component :=
  fst (step (jan11 + 200) (ToggleLive true) afterPan).

Definition afterPanJump : Component :=
  fst (step (jan11 + 200) (Jump jan06) afterPan).

(** A pan-button click 100 minutes past now, at one minute per pixel. *)
Definition pastNow : string := "2020-01-11T01:40:00Z".

Definition afterPanButton : Component :=
  fst (step (jan11 + 100) (PanButton pastNow) (scenario true false)).

(** A session whose history is three seconds long, at 500 ms per pixel, and
    a pan-button click ten seconds before the earliest timestamp. *)
Definition shortHistory : Component :=
  mount jan11 {|
    timestamp := Some "2020-01-10T23:59:58Z"%string;
    earliestTimestamp := Some "2020-01-10T23:59:57Z"%string;
    hasLiveMode := true;
    showingLiveProp := false;
    hasRangeSelector := false;
    rangeMsProp := 3600000;
  |}.

Definition beforeEarliest : string := "2020-01-10T23:59:47Z".

(** Order on timestamps, as the code compares them. *)
Definition ts_le (a b : string) : Prop := String.leb a b = true.

(** [t] is not before the earliest timestamp, when there is one. *)
Definition fromEarliest (p : Props) (t : string) : Prop :=
  match earliestTimestamp p with
  | Some start => ts_le start t
  | None => True
  end.

(** ** Valid dates

    [moment(s)] is an invalid date when [s] is [null], empty or not a
    timestamp, and the code then computes with [NaN], which the numbers of
    this development do not have: [moment s] stands for the instant of [s]
    only when [momentIsValid s] holds.  Properties of the zoom bounds are
    stated for valid dates. *)
Class MomentValidity := {
  momentIsValid : string -> bool;
}.

#[export] Instance isoValidity : MomentValidity := {
  momentIsValid := fun s =>
    match Iso.parse s with
    | Some _ => true
    | None => false
    end;
}.

(** The earliest timestamp is given and valid, and so is the formatted
    current time: the available duration is a number. *)
Definition validDates {U : TimelineUtils} {V : MomentValidity}
    (clock : Z) (earliest : option string) : Prop :=
  match earliest with
  | Some e => momentIsValid e = true
  | None => False
  end
  /\ momentIsValid (formattedTimestamp clock None) = true.

(** ** The telemetry channel *)

Section Telemetry.

Context {U : TimelineUtils}.

(** The period [reportZoom] finds at the zoom level [d]. *)
Definition zoomedPeriodAt (d : Q) : option string :=
  find (fun period =>
          negb (MomentDuration.get (d * MAX_TICK_SPACING_PX)%Q period =? 0))
    ["years"; "months"; "weeks"; "days"; "hours"; "minutes"; "seconds"]%string.

(** The timeout of [delayedReportZoom] running at each of [times]. *)
Definition zoomExpiries (times : list Z) : list (Z * Event) :=
  map (fun t => (t, ZoomTimerExpired)) times.

End Telemetry.

(** * The other components

    The searchable menu ([src/unnamed/part_003]; [src/unnamed/part_002] is
    an earlier copy with the same [filterItems] and [moveSoftSelect]), the
    legend of the graph ([src/components/PrometheusGraph/_Legend.js]) and
    the auto-refreshing timestamp tag ([src/unnamed/part_001]). *)

(** ** LookupMenu *)
Module LookupMenu.

Record Item := {
  value : option string;
  label : string;
}.

(** lodash [includes] on a string: [collection.indexOf(target) > -1]. *)
Definition includes (collection target : string) : bool :=
  match String.index 0 target collection with
  | Some _ => true
  | None => false
  end.

Section Menu.

(** lodash [lowerCase], which also splits its argument into words; the menu
    is parameterised by it. *)
Variable lowerCase : string -> string.

Definition filterItems (items : list Item) (query : string) : list Item :=
  if String.eqb query "" then items
  else
    let result :=
      filter (fun i => includes (lowerCase (label i)) (lowerCase query)) items in
    if Nat.eqb (List.length result) 0
    then [{| value := None; label := "No items found" |}]
    else result.

(** [softSelectedIndex] is [null] or a number. *)
Definition moveSoftSelect (softSelectedIndex : option Z) (items : list Item) (amt : Z)
  : option Z :=
  let next :=
    match softSelectedIndex with
    | Some i => i + amt
    | None => 0
    end in
  if next >? Z.of_nat (List.length items) - 1 then softSelectedIndex
  else if next <? 0 then Some 0
  else Some next.

(** [hasOnChange] tells whether the [onChange] prop was passed. *)
Record Props := {
  itemsProp : list Item;
  hasOnChange : bool;
}.

Record State := {
  items : list Item;
  query : string;
  softSelectedIndex : option Z;
}.

Record Component := {
  props : Props;
  state : State;
}.

(** What a handler does to the outside: [ev.preventDefault()], a call of
    [props.onChange] with a value, or a [TypeError] that ends it. *)
Inductive Output :=
| preventDefault
| onChange (value : option string)
| TypeError.

Definition constructor (p : Props) : Component := {|
  props := p;
  state := {| items := []; query := ""; softSelectedIndex := None |};
|}.

(** The method [filterItems({ items }, query)]. *)
Definition this_filterItems (itemsArg : list Item) (queryArg : option string)
    (c : Component) : Component := {|
  props := props c;
  state := {|
    items :=
      match queryArg with
      | Some q => if truthy queryArg then filterItems itemsArg q else itemsArg
      | None => itemsArg
      end;
    query := query (state c);
    softSelectedIndex := softSelectedIndex (state c);
  |};
|}.

Definition componentDidMount (c : Component) : Component :=
  this_filterItems (itemsProp (props c)) None c.

(** React makes [nextProps] the props once the hook has run.  The warning
    about [children] goes to the console only. *)
Definition componentWillReceiveProps (nextProps : Props) (c : Component) : Component :=
  let c := this_filterItems (itemsProp nextProps) (Some (query (state c))) c in
  {| props := nextProps; state := state c |}.

Definition handleSearch (value : string) (c : Component) : Component :=
  let c := {|
    props := props c;
    state := {| items := items (state c); query := value;
                softSelectedIndex := softSelectedIndex (state c) |};
  |} in
  this_filterItems (itemsProp (props c)) (Some value) c.

Definition handleChange (value : option string) (c : Component) : list Output :=
  if hasOnChange (props c) then [onChange value] else [].

(** [this.state.items[this.state.softSelectedIndex]]. *)
Definition softSelectedItem (s : State) : option Item :=
  match softSelectedIndex s with
  | Some i => if i <? 0 then None else nth_error (items s) (Z.to_nat i)
  | None => None
  end.

Definition setSoftSelectedIndex (i : option Z) (c : Component) : Component := {|
  props := props c;
  state := {| items := items (state c); query := query (state c);
              softSelectedIndex := i |};
|}.

(** [handleToggle] is not defined by the class: the Escape key raises. *)
Definition handleKeyboardNavigation (key : string) (c : Component)
  : Component * list Output :=
  if String.eqb key "ArrowDown" then
    (setSoftSelectedIndex
       (moveSoftSelect (softSelectedIndex (state c)) (items (state c)) 1) c,
     [preventDefault])
  else if String.eqb key "ArrowUp" then
    (setSoftSelectedIndex
       (moveSoftSelect (softSelectedIndex (state c)) (items (state c)) (-1)) c,
     [preventDefault])
  else if String.eqb key "Enter" then
    (c, preventDefault ::
        match softSelectedItem (state c) with
        | Some item => handleChange (value item) c
        | None => [TypeError]
        end)
  else if String.eqb key "Escape" then (c, [TypeError])
  else (c, []).

Inductive Event :=
| ReceiveProps (nextProps : Props)
| Search (value : string)       (* handleSearch, with [ev.target.value] *)
| KeyDown (key : string)        (* handleKeyboardNavigation, with [ev.key] *)
| Click (item : Item).          (* the [onClick] of a rendered item *)

Definition step (e : Event) (c : Component) : Component * list Output :=
  match e with
  | ReceiveProps nextProps => (componentWillReceiveProps nextProps c, [])
  | Search value => (handleSearch value c, [])
  | KeyDown key => handleKeyboardNavigation key c
  | Click item => (c, handleChange (value item) c)
  end.

Fixpoint run (trace : list Event) (c : Component) : Component * list Output :=
  match trace with
  | [] => (c, [])
  | e :: rest =>
      let '(c1, out1) := step e c in
      let '(c2, out2) := run rest c1 in
      (c2, out1 ++ out2)
  end.

Definition mount (p : Props) : Component := componentDidMount (constructor p).

End Menu.

(** ASCII lower-casing: what [lowerCase] does to words of letters separated
    by single spaces. *)
Fixpoint asciiLower (s : string) : string :=
  match s with
  | EmptyString => EmptyString
  | String ch rest =>
      let n := N_of_ascii ch in
      String (if ((65 <=? n) && (n <=? 90))%N then ascii_of_N (n + 32) else ch)
        (asciiLower rest)
  end.

(** The items of the component's tests. *)
Definition testItems : list Item := [
  {| value := Some "first-thing"%string; label := "First Thing" |};
  {| value := Some "second-thing"%string; label := "Second Thing" |};
  {| value := Some "third-thing"%string;
     label := "Super long thing, this should get truncated" |}
].

(** The menu of the tests, mounted, with an [onChange] prop. *)
Definition testMenu : Component :=
  mount asciiLower {| itemsProp := testItems; hasOnChange := true |}.

End LookupMenu.

(** ** Legend *)
Module Legend.

Record State := {
  shown : bool;
  selectedKeys : list string;
  hoveredKey : option string;
}.

Inductive Output :=
| onSelectedKeysChange (selectedKeys : list string)
| onHoveredKeyChange (key : option string).

(** [Array.prototype.sort()] on strings: the sorted rearrangement, here by
    insertion. *)
Fixpoint insert (key : string) (keys : list string) : list string :=
  match keys with
  | [] => [key]
  | k :: rest => if String.leb key k then key :: keys else k :: insert key rest
  end.

Definition sort (keys : list string) : list string := fold_right insert [] keys.

(** lodash [without]. *)
Definition without (keys : list string) (key : string) : list string :=
  filter (fun k => negb (String.eqb k key)) keys.

Definition constructor (shownProp : bool) (selectedKeysProp : list string) : State := {|
  shown := shownProp;
  selectedKeys := selectedKeysProp;
  hoveredKey := None;
|}.

Definition seriesSelected (s : State) (key : string) : bool :=
  existsb (String.eqb key) (selectedKeys s).

(** A click on the legend item of the series [key]. *)
Definition handleLegendItemClick (ctrlKey metaKey : bool) (key : string) (s : State)
  : State * list Output :=
  let selected :=
    if ctrlKey || metaKey then
      if seriesSelected s key
      then without (selectedKeys s) key
      else sort (key :: selectedKeys s)
    else
      let onlyThisSelected :=
        seriesSelected s key && Nat.eqb (List.length (selectedKeys s)) 1 in
      if onlyThisSelected then [] else [key] in
  ({| shown := shown s; selectedKeys := selected; hoveredKey := hoveredKey s |},
   [onSelectedKeysChange selected]).

Definition handleLegendItemMouseEnter (key : string) (s : State) : State * list Output :=
  ({| shown := shown s; selectedKeys := selectedKeys s; hoveredKey := Some key |},
   [onHoveredKeyChange (Some key)]).

Definition handleLegendItemMouseLeave (s : State) : State * list Output :=
  ({| shown := shown s; selectedKeys := selectedKeys s; hoveredKey := None |},
   [onHoveredKeyChange None]).

Definition handleLegendToggle (s : State) : State :=
  {| shown := negb (shown s); selectedKeys := selectedKeys s; hoveredKey := hoveredKey s |}.

End Legend.

(** ** TimestampTag *)
Module TimestampTag.

(** The intervals of the page: the live ones with their periods, and the
    next handle [setInterval] hands out (handles are positive numbers). *)
Record Timers := {
  intervals : list (positive * Q);
  nextId : positive;
}.

Definition setInterval (ms : Q) (T : Timers) : positive * Timers :=
  (nextId T,
   {| intervals := (nextId T, ms) :: intervals T; nextId := Pos.succ (nextId T) |}).

Definition clearInterval (id : positive) (T : Timers) : Timers := {|
  intervals := filter (fun i => negb (Pos.eqb (fst i) id)) (intervals T);
  nextId := nextId T;
|}.

Record Props := {
  relative : bool;
  intervalMs : Q;
}.

(** [this.timer] and the page's intervals. *)
Definition World : Type := option positive * Timers.

Definition stopAutoRefresh (w : World) : World :=
  match fst w with
  | Some id => (None, clearInterval id (snd w))
  | None => w
  end.

Definition startAutoRefresh (p : Props) (w : World) : World :=
  let w := stopAutoRefresh w in
  let '(id, T) := setInterval (intervalMs p) (snd w) in
  (Some id, T).

Definition componentDidMount (p : Props) (w : World) : World :=
  if relative p then startAutoRefresh p w else w.

Definition componentWillReceiveProps (nextProps : Props) (w : World) : World :=
  if relative nextProps then startAutoRefresh nextProps w else stopAutoRefresh w.

Definition componentWillUnmount (w : World) : World := stopAutoRefresh w.

(** The component is mounted with [p] on a page with the intervals [T], then
    receives the props of [pushes] in order. *)
Definition lifetime (p : Props) (pushes : list Props) (T : Timers) : World :=
  fold_left (fun w nextProps => componentWillReceiveProps nextProps w) pushes
    (componentDidMount p (None, T)).

(** This component's interval, if any, sits on top of the page's [T]. *)
Definition ownsAtMostOne (T : Timers) (q : Props) (w : World) : Prop :=
  (nextId T <= nextId (snd w))%positive
  /\ match fst w with
     | Some id =>
         relative q = true
         /\ (nextId T <= id < nextId (snd w))%positive
         /\ intervals (snd w) = (id, intervalMs q) :: intervals T
     | None => relative q = false /\ intervals (snd w) = intervals T
     end.

(** Every live handle was handed out before. *)
Definition wellFormed (T : Timers) : Prop :=
  Forall (fun i => (fst i < nextId T)%positive) (intervals T).

End TimestampTag.

(** * Properties *)

(** ** Timestamps: order and printing *)

Lemma ts_le_refl (a : string) : ts_le a a.
Proof.
  unfold ts_le. destruct (String.leb_total a a); assumption.
Qed.

Lemma ltb_false_le (a b : string) : String.ltb a b = false -> ts_le b a.
Proof.
  unfold ts_le, String.ltb, String.leb.
  rewrite (String.compare_antisym b a).
  destruct (String.compare a b); simpl; congruence.
Qed.

Lemma ltb_true_le (a b : string) : String.ltb a b = true -> ts_le a b.
Proof.
  unfold ts_le, String.ltb, String.leb.
  destruct (String.compare a b); congruence.
Qed.

Lemma ts_le_ltb_false (a b : string) : ts_le a b -> String.ltb b a = false.
Proof.
  unfold ts_le, String.ltb, String.leb.
  rewrite (String.compare_antisym b a).
  destruct (String.compare a b); simpl; congruence.
Qed.

Example iso_parse_2020_01_11 :
  Iso.parse "2020-01-11T00:00:00Z" = Some jan11.
Proof. reflexivity. Qed.

Example iso_print_truncates :
  Iso.print (jan11 + 999) = "2020-01-11T00:00:00Z"%string.
Proof. reflexivity. Qed.

Example iso_print_leap_day :
  Iso.print 1582934399000 = "2020-02-28T23:59:59Z"%string
  /\ Iso.print 1582934400000 = "2020-02-29T00:00:00Z"%string
  /\ Iso.parse "2020-03-01T00:00:00Z" = Some (1582934400000 + 86400000).
Proof. repeat split; reflexivity. Qed.

(** ** lodash [clamp] *)

Lemma Qle_bool_false (x y : Q) : Qle_bool x y = false -> (y < x)%Q.
Proof.
  intros H. apply Qnot_le_lt. intros Hle.
  apply Qle_bool_iff in Hle. congruence.
Qed.

(** Case analysis on every number comparison of the goal. *)
Ltac number_cases :=
  repeat match goal with
    | |- context [Qle_bool ?a ?b] =>
        lazymatch a with context [Qle_bool] => fail | _ => idtac end;
        lazymatch b with context [Qle_bool] => fail | _ => idtac end;
        let E := fresh "E" in
        destruct (Qle_bool a b) eqn:E;
        [apply Qle_bool_iff in E | apply Qle_bool_false in E]
    end.

Lemma clamp_monotone (x y lower upper : Q) :
  (x <= y)%Q -> (clamp x lower upper <= clamp y lower upper)%Q.
Proof. intros Hxy. unfold clamp. number_cases; lra. Qed.

Lemma clamp_bounds (x lower upper : Q) :
  (lower <= upper)%Q ->
  (lower <= clamp x lower upper <= upper)%Q.
Proof. intros Hlu. unfold clamp. number_cases; lra. Qed.

(** ** ClampPolicy *)

Section ClampPolicy.

Context {U : TimelineUtils}.

(** Claim C8, as amended.  In the order the code compares timestamps in
    (the order of the strings, [ts_le]), whenever the session's interval is
    not empty (the earliest timestamp, if any, is not after [timestampNow],
    which is a non-empty string), [clampedTimestamp] returns a timestamp of
    the closed interval from the earliest timestamp to [timestampNow]; and
    a timestamp whose formatted form is already in that interval comes back
    as that formatted form: unchanged only when it was given in formatted
    form. *)
Theorem clampedTimestamp_in_range_fixed_point
    (clock : Z) (p : Props) (s : State) (raw : string) :
  timestampNow s <> EmptyString ->
  fromEarliest p (timestampNow s) ->
  let formatted := formattedTimestamp clock (Some raw) in
  (fromEarliest p (clampedTimestamp clock p s raw)
   /\ ts_le (clampedTimestamp clock p s raw) (timestampNow s))
  /\ (fromEarliest p formatted -> ts_le formatted (timestampNow s) ->
      clampedTimestamp clock p s raw = formatted)
  /\ (formatted = raw -> fromEarliest p raw -> ts_le raw (timestampNow s) ->
      clampedTimestamp clock p s raw = raw).
Proof.
  intros Hnow Hspan formatted.
  assert (Hne : negb (String.eqb (timestampNow s) "") = true).
  { apply negb_true_iff, String.eqb_neq. exact Hnow. }
  assert (Hfix : fromEarliest p formatted -> ts_le formatted (timestampNow s) ->
                 clampedTimestamp clock p s raw = formatted).
  { unfold fromEarliest, clampedTimestamp. fold formatted. rewrite Hne.
    intros Hlo Hhi.
    destruct (earliestTimestamp p) as [start|].
    - rewrite (ts_le_ltb_false _ _ Hlo), andb_false_r.
      rewrite (ts_le_ltb_false _ _ Hhi). reflexivity.
    - rewrite (ts_le_ltb_false _ _ Hhi). reflexivity. }
  split; [|split].
  - unfold fromEarliest, clampedTimestamp in *. fold formatted. rewrite Hne. simpl.
    destruct (earliestTimestamp p) as [start|].
    + destruct (truthy (Some start) && String.ltb formatted start) eqn:Hlow.
      * destruct (String.ltb (timestampNow s) start) eqn:Hup.
        -- split; [exact Hspan | apply ts_le_refl].
        -- split; [apply ts_le_refl | apply ltb_false_le; exact Hup].
      * destruct (String.ltb (timestampNow s) formatted) eqn:Hup.
        -- split; [exact Hspan | apply ts_le_refl].
        -- split; [|apply ltb_false_le; exact Hup].
           apply andb_false_iff in Hlow. destruct Hlow as [Hfalsy | Hlt].
           ++ simpl in Hfalsy. apply negb_false_iff, String.eqb_eq in Hfalsy.
              subst start. unfold ts_le. destruct formatted; reflexivity.
           ++ apply ltb_false_le. exact Hlt.
    + destruct (String.ltb (timestampNow s) formatted) eqn:Hup.
      * split; [exact I | apply ts_le_refl].
      * split; [exact I | apply ltb_false_le; exact Hup].
  - exact Hfix.
  - intros Hraw Hlo Hhi. rewrite <- Hraw at 2. apply Hfix; rewrite Hraw; assumption.
Qed.

(** Claim C9.  The maximal zoom-out level does not decrease when the
    available span (current time minus earliest timestamp) grows. *)
Theorem maxDurationMsPerTimelinePx_monotone
    (clock1 clock2 : Z) (earliest1 earliest2 : option string) :
  availableTimelineDurationMs clock1 earliest1
    <= availableTimelineDurationMs clock2 earliest2 ->
  (maxDurationMsPerTimelinePx clock1 earliest1
     <= maxDurationMsPerTimelinePx clock2 earliest2)%Q.
Proof.
  intros Hspan. unfold maxDurationMsPerTimelinePx.
  apply clamp_monotone.
  apply Qmult_le_compat_r.
  - rewrite <- Zle_Qle. exact Hspan.
  - discriminate.
Qed.

(** Claim C4, as amended.  Over a span of ten days (864,000,000 ms) the
    maximal zoom-out level is 864,000,000 / 400 = 2,160,000 ms per pixel,
    under the ceiling of three days per pixel, and the initial zoom level is
    [clamp(216,000, 500, 60,000)] = 60,000 ms per pixel. *)
Theorem ten_day_span_zoom_levels (clock : Z) (earliest : option string) :
  availableTimelineDurationMs clock earliest = 10 * 86400000 ->
  (maxDurationMsPerTimelinePx clock earliest == 2160000)%Q
  /\ (maxDurationMsPerTimelinePx clock earliest < 3 * 86400000)%Q
  /\ (maxDurationMsPerTimelinePx clock earliest * (1 # 10) == 216000)%Q
  /\ (initialDurationMsPerTimelinePx clock earliest == 60000)%Q.
Proof.
  intros Hspan.
  assert (Hmax : (maxDurationMsPerTimelinePx clock earliest == 2160000)%Q).
  { unfold maxDurationMsPerTimelinePx. rewrite Hspan. reflexivity. }
  repeat split.
  - exact Hmax.
  - rewrite Hmax. reflexivity.
  - rewrite Hmax. reflexivity.
  - unfold initialDurationMsPerTimelinePx, minDurationMsPerTimelinePx.
    assert (Hlarge : (60000 < maxDurationMsPerTimelinePx clock earliest * (1 # 10))%Q).
    { rewrite Hmax. reflexivity. }
    unfold clamp. number_cases; lra.
Qed.

End ClampPolicy.

(** ** The handlers, step by step *)

(** Unfold one handler of the state machine down to the instance it returns
    and the callbacks it makes. *)
Ltac run_handler :=
  cbv [step handler tick componentWillReceiveProps componentWillUnmount
       componentDidMount setFocusedTimestamp handleRangeChange handleInputChange
       handleTimelineJump handleTimelinePanButtonClick handleTimelineZoom
       handleTimelinePan handleTimelineRelease handleTimelineResize
       handleLiveModeToggle reportZoom zoomTimerExpired changeTimerExpired
       bind ret when dateNow getState getProps getChange getZoom
       setState putChange putZoom putTimer putProps callback];
  cbn [props state delayedReportZoom delayedOnChangeTimestamp timer
       with_state with_change with_zoom with_timer with_props
       timestampNow focusedTimestamp durationMsPerPixel showingLive rangeMs
       timelineWidthPx set_timestampNow set_focusedTimestamp
       set_durationMsPerPixel set_showingLive set_rangeMs set_timelineWidthPx
       pushedProps hasLiveMode showingLiveProp earliestTimestamp timestamp
       rangeMsProp hasRangeSelector fst snd app].

(** [clampedTimestamp] reads [timestampNow] only. *)
Ltac forget_showingLive :=
  repeat match goal with
    | |- context [clampedTimestamp ?k ?p (set_showingLive ?b ?s) ?t] =>
        change (clampedTimestamp k p (set_showingLive b s) t)
          with (clampedTimestamp k p s t)
    end.

Section Handlers.

Context {U : TimelineUtils}.

Lemma step_Tick (clock : Z) (c : Component) :
  timer c = true ->
  step clock Tick c =
    let timestampNow := formattedTimestamp clock None in
    (with_state
       (if hasLiveMode (props c) && showingLive (state c)
        then set_focusedTimestamp timestampNow (set_timestampNow timestampNow (state c))
        else set_timestampNow timestampNow (state c)) c, []).
Proof.
  intros Htimer. run_handler. rewrite Htimer.
  destruct (hasLiveMode (props c) && showingLive (state c)); reflexivity.
Qed.

Lemma step_ToggleLive (clock : Z) (live : bool) (c : Component) :
  step clock (ToggleLive live) c =
    (with_state
       (if live
        then set_focusedTimestamp (timestampNow (state c)) (set_showingLive live (state c))
        else set_showingLive live (state c)) c,
     [onChangeLiveMode live]).
Proof. run_handler. destruct live; reflexivity. Qed.

Lemma step_Jump (clock : Z) (ts : string) (c : Component) :
  step clock (Jump ts) c =
    let focused := clampedTimestamp clock (props c) (state c) ts in
    if String.eqb focused (focusedTimestamp (state c))
    then (with_state (set_showingLive false (state c)) c, [onTimelineLabelClick])
    else (with_state (set_focusedTimestamp focused (set_showingLive false (state c)))
            (with_change (Debounce.cancel (delayedOnChangeTimestamp c)) c),
          [onChangeTimestamp focused; onTimelineLabelClick]).
Proof.
  run_handler. forget_showingLive.
  destruct (String.eqb _ _); reflexivity.
Qed.

Lemma step_Pan (clock : Z) (ts : string) (c : Component) :
  step clock (Pan ts) c =
    let focused := clampedTimestamp clock (props c) (state c) ts in
    (with_state (set_focusedTimestamp focused (set_showingLive false (state c)))
       (with_change (Debounce.call clock focused (delayedOnChangeTimestamp c)) c),
     []).
Proof. reflexivity. Qed.

Lemma step_Zoom (clock : Z) (duration : Q) (c : Component) :
  step clock (Zoom duration) c =
    (with_state
       (set_durationMsPerPixel (clampedDuration clock (props c) duration) (state c))
       (with_zoom (Debounce.call clock tt (delayedReportZoom c)) c),
     []).
Proof. reflexivity. Qed.

Lemma step_PanButton (clock : Z) (ts : string) (c : Component) :
  step clock (PanButton ts) c =
    let live := shouldStickySwitchToLiveMode (props c) (state c) (set_focusedTimestamp ts) in
    let focused :=
      clampedTimestamp clock (props c) (state c)
        (if live then timestampNow (state c) else ts) in
    if String.eqb focused (focusedTimestamp (state c))
    then (with_state (set_showingLive live (state c)) c, [onTimelinePanButtonClick])
    else (with_state (set_focusedTimestamp focused (set_showingLive live (state c)))
            (with_change (Debounce.cancel (delayedOnChangeTimestamp c)) c),
          [onChangeTimestamp focused; onTimelinePanButtonClick]).
Proof.
  run_handler.
  destruct (shouldStickySwitchToLiveMode _ _ _);
    run_handler; forget_showingLive;
    destruct (String.eqb _ _); reflexivity.
Qed.

Lemma step_PanRelease (clock : Z) (c : Component) :
  step clock PanRelease c =
    if shouldStickySwitchToLiveMode (props c) (state c) (fun s => s) then
      let focused := clampedTimestamp clock (props c) (state c) (timestampNow (state c)) in
      if String.eqb focused (focusedTimestamp (state c))
      then (with_state (set_showingLive true (state c)) c, [onTimelinePan])
      else (with_state (set_focusedTimestamp focused (set_showingLive true (state c)))
              (with_change (Debounce.cancel (delayedOnChangeTimestamp c)) c),
            [onChangeTimestamp focused; onTimelinePan])
    else (c, [onTimelinePan]).
Proof.
  run_handler.
  destruct (shouldStickySwitchToLiveMode _ _ _);
    run_handler; forget_showingLive; [|reflexivity].
  destruct (String.eqb _ _); reflexivity.
Qed.

Lemma step_ChangeTimerExpired (clock : Z) (c : Component) :
  step clock ChangeTimerExpired c =
    let d := delayedOnChangeTimestamp c in
    if Debounce.timerId d && Debounce.shouldInvoke 500 clock d then
      (with_change (Debounce.Make None (Debounce.lastCallTime d) false) c,
       match Debounce.lastArgs d with
       | Some ts => [onChangeTimestamp ts]
       | None => []
       end)
    else (with_change d c, []).
Proof.
  run_handler. unfold Debounce.timerExpired.
  destruct (Debounce.timerId _); [|reflexivity].
  destruct (Debounce.shouldInvoke _ _ _); [|reflexivity].
  destruct (Debounce.lastArgs _); reflexivity.
Qed.

Lemma sticky_needs_live_mode (p : Props) (s : State) (nextState : State -> State) :
  hasLiveMode p = false -> shouldStickySwitchToLiveMode p s nextState = false.
Proof.
  intros Hoff. unfold shouldStickySwitchToLiveMode.
  rewrite Hoff, andb_false_r. reflexivity.
Qed.

(** The configuration props are the same after every transition. *)
Lemma step_keeps_hasLiveMode (clock : Z) (e : Event) (c : Component) :
  hasLiveMode (props (fst (step clock e c))) = hasLiveMode (props c).
Proof.
  destruct e;
    try (rewrite ?step_ToggleLive, ?step_Jump, ?step_PanButton, ?step_PanRelease,
           ?step_ChangeTimerExpired; cbv zeta;
         repeat match goal with
           | |- context [if ?b then _ else _] => destruct b
           end; reflexivity).
  - run_handler. destruct (timer c); [|reflexivity].
    run_handler. destruct (hasLiveMode (props c) && showingLive (state c)); reflexivity.
  - run_handler.
    destruct (hasLiveMode (props c) && live); [reflexivity|].
    destruct (negb live && showingLiveProp (props c)); [reflexivity|].
    destruct (truthy ts); reflexivity.
  - run_handler. destruct (String.eqb _ _); reflexivity.
  - run_handler. destruct (Debounce.timerExpired _ _ _) as [d' [fire|]]; reflexivity.
Qed.

(** With live mode unsupported, only [toggleLive(true)] turns [showingLive] on. *)
Lemma step_keeps_showingLive_off (clock : Z) (e : Event) (c : Component) :
  hasLiveMode (props c) = false ->
  showingLive (state c) = false ->
  e <> ToggleLive true ->
  showingLive (state (fst (step clock e c))) = false.
Proof.
  intros Hoff Hs He.
  destruct e;
    try (rewrite ?step_Jump, ?step_PanButton, ?step_PanRelease,
           ?step_ChangeTimerExpired; cbv zeta;
         rewrite ?sticky_needs_live_mode by assumption;
         repeat match goal with
           | |- context [if ?b then _ else _] => destruct b
           end; solve [reflexivity | exact Hs]).
  - run_handler. destruct (timer c); [|exact Hs].
    run_handler. rewrite Hoff. exact Hs.
  - run_handler. rewrite Hoff. cbn [andb].
    destruct (negb live && showingLiveProp (props c)); [exact Hs|].
    destruct (truthy ts); exact Hs.
  - run_handler. destruct (String.eqb _ _); exact Hs.
  - destruct live; [congruence|]. rewrite step_ToggleLive. reflexivity.
  - run_handler. destruct (Debounce.timerExpired _ _ _) as [d' [fire|]]; exact Hs.
Qed.

Lemma run_keeps_hasLiveMode (trace : list (Z * Event)) (c : Component) :
  hasLiveMode (props (fst (run trace c))) = hasLiveMode (props c).
Proof.
  revert c. induction trace as [|[clock e] rest IH]; intros c; [reflexivity|].
  cbn [run]. pose proof (step_keeps_hasLiveMode clock e c) as Hstep.
  destruct (step clock e c) as [c1 out1]. specialize (IH c1).
  destruct (run rest c1) as [c2 out2]. cbn [fst] in *. congruence.
Qed.

Lemma run_keeps_showingLive_off (trace : list (Z * Event)) (c : Component) :
  hasLiveMode (props c) = false ->
  showingLive (state c) = false ->
  Forall (fun ev => snd ev <> ToggleLive true) trace ->
  showingLive (state (fst (run trace c))) = false.
Proof.
  revert c. induction trace as [|[clock e] rest IH]; intros c Hoff Hs Hno; [exact Hs|].
  inversion Hno as [|ev evs Hhead Hrest]; subst. cbn [snd] in Hhead.
  cbn [run].
  pose proof (step_keeps_hasLiveMode clock e c) as Hcfg.
  pose proof (step_keeps_showingLive_off clock e c Hoff Hs Hhead) as Hstep.
  destruct (step clock e c) as [c1 out1]. cbn [fst] in *.
  assert (Hoff1 : hasLiveMode (props c1) = false) by congruence.
  specialize (IH c1 Hoff1 Hstep Hrest).
  destruct (run rest c1) as [c2 out2]. exact IH.
Qed.

End Handlers.

(** ** Live mode *)

Section LiveMode.

Context {U : TimelineUtils}.

(** Claim C1, as amended.  In a session configured with [hasLiveMode =
    false] the field [showingLive] starts as the [showingLive] prop and
    [toggleLive(b)] sets it to [b]; no other transition turns it on, so it
    is false in every state reached from a session started with the prop
    false by transitions other than [toggleLive(true)].  Whatever the field
    holds, live mode stays off in effect: in every reachable state a tick
    leaves [focusedTimestamp] as it is and the sticky heuristic does not
    recommend live. *)
Theorem showingLive_without_live_mode (clock : Z) (p : Props) :
  hasLiveMode p = false ->
  showingLive (state (mount clock p)) = showingLiveProp p
  /\ (forall (trace : list (Z * Event)) (at_ : Z) (b : bool),
        showingLive
          (state (fst (step at_ (ToggleLive b) (fst (run trace (mount clock p))))))
        = b)
  /\ (showingLiveProp p = false ->
      forall trace : list (Z * Event),
        Forall (fun ev => snd ev <> ToggleLive true) trace ->
        showingLive (state (fst (run trace (mount clock p)))) = false)
  /\ (forall (trace : list (Z * Event)) (at_ : Z),
        let c := fst (run trace (mount clock p)) in
        focusedTimestamp (state (fst (step at_ Tick c))) = focusedTimestamp (state c)
        /\ forall nextState,
             shouldStickySwitchToLiveMode (props c) (state c) nextState = false).
Proof.
  intros Hoff. repeat split.
  - intros trace at_ b. rewrite step_ToggleLive. destruct b; reflexivity.
  - intros Hprop trace Hno.
    apply run_keeps_showingLive_off; [exact Hoff | exact Hprop | exact Hno].
  - pose proof (run_keeps_hasLiveMode trace (mount clock p)) as Hcfg.
    change (hasLiveMode (props (mount clock p))) with (hasLiveMode p) in Hcfg.
    rewrite Hoff in Hcfg. run_handler.
    destruct (timer _); [|reflexivity].
    run_handler. rewrite Hcfg. reflexivity.
  - intros nextState. apply sticky_needs_live_mode.
    rewrite run_keeps_hasLiveMode. exact Hoff.
Qed.

(** Claim C3, as amended.  In a state where live mode is supported and
    [showingLive] is true, [focusedTimestamp] equals [timestampNow] (the
    current time) immediately after a tick; and immediately after
    [toggleLive(true)], in any state, [focusedTimestamp] equals
    [timestampNow] and [showingLive] is true. *)
Theorem live_focus_follows_now (clock : Z) (c : Component) :
  (hasLiveMode (props c) = true -> showingLive (state c) = true -> timer c = true ->
   let c' := fst (step clock Tick c) in
   focusedTimestamp (state c') = timestampNow (state c')
   /\ timestampNow (state c') = formattedTimestamp clock None)
  /\ (let c' := fst (step clock (ToggleLive true) c) in
      focusedTimestamp (state c') = timestampNow (state c')
      /\ timestampNow (state c') = timestampNow (state c)
      /\ showingLive (state c') = true).
Proof.
  split.
  - intros Hlive Hshow Htimer. rewrite (step_Tick clock c Htimer).
    rewrite Hlive, Hshow. split; reflexivity.
  - rewrite step_ToggleLive. repeat split.
Qed.

(** Clamping the current [timestampNow] gives it back. *)
Lemma clampedTimestamp_now (clock : Z) (p : Props) (s : State) :
  timestampNow s <> EmptyString ->
  formattedTimestamp clock (Some (timestampNow s)) = timestampNow s ->
  clampedTimestamp clock p s (timestampNow s) = timestampNow s.
Proof.
  intros Hnow Hfmt. unfold clampedTimestamp. rewrite Hfmt.
  assert (Hne : negb (String.eqb (timestampNow s) "") = true).
  { apply negb_true_iff, String.eqb_neq. exact Hnow. }
  assert (Hself : String.ltb (timestampNow s) (timestampNow s) = false).
  { apply ts_le_ltb_false, ts_le_refl. }
  rewrite Hne. cbn [andb].
  destruct (earliestTimestamp p) as [start|]; [|rewrite Hself; reflexivity].
  destruct (truthy (Some start) && String.ltb (timestampNow s) start) eqn:Hlow.
  - apply andb_true_iff in Hlow. destruct Hlow as [_ Hlt]. rewrite Hlt. reflexivity.
  - rewrite Hself. reflexivity.
Qed.

(** Claim C7, as amended.  [panButton(t)] snaps to live exactly when live
    mode is supported, [showingLive] is false and the pixel offset of
    [timestampNow] in the state focused on the raw [t] is below 10 pixels,
    negative offsets (a [t] past now) included: then [showingLive] is true
    and [focusedTimestamp] is the clamped [timestampNow], which is
    [timestampNow] itself when that is a (non-empty) formatted timestamp.  Otherwise
    [showingLive] is false and [focusedTimestamp] is [clampedTimestamp t]. *)
Theorem panButton_sticky_switch (clock : Z) (ts : string) (c : Component) :
  let p := props c in
  let s := state c in
  let offset := getTimeScale (set_focusedTimestamp ts s) (moment (timestampNow s)) in
  let c' := fst (step clock (PanButton ts) c) in
  (hasLiveMode p = true -> showingLive s = false -> (offset < 10)%Q ->
   showingLive (state c') = true
   /\ focusedTimestamp (state c') = clampedTimestamp clock p s (timestampNow s)
   /\ (timestampNow s <> EmptyString ->
       formattedTimestamp clock (Some (timestampNow s)) = timestampNow s ->
       focusedTimestamp (state c') = timestampNow s))
  /\ (hasLiveMode p = false \/ showingLive s = true \/ (10 <= offset)%Q ->
      showingLive (state c') = false
      /\ focusedTimestamp (state c') = clampedTimestamp clock p s ts).
Proof.
  intros p s offset c'.
  assert (Hfocus : forall (live : bool) (focused : string),
            focused = clampedTimestamp clock p s (if live then timestampNow s else ts) ->
            shouldStickySwitchToLiveMode p s (set_focusedTimestamp ts) = live ->
            showingLive (state c') = live /\ focusedTimestamp (state c') = focused).
  { intros live focused Hfoc Hlive. subst c'. rewrite step_PanButton. cbv zeta.
    fold p s. rewrite Hlive, <- Hfoc.
    destruct (String.eqb focused (focusedTimestamp s)) eqn:Heq; cbn; [|split; reflexivity].
    apply String.eqb_eq in Heq. split; [reflexivity | congruence]. }
  split.
  - intros Hlive Hshow Hoff.
    assert (Hsticky : shouldStickySwitchToLiveMode p s (set_focusedTimestamp ts) = true).
    { unfold shouldStickySwitchToLiveMode. fold offset.
      rewrite Hlive, Hshow. unfold Qltb.
      destruct (Qle_bool 10 offset) eqn:Hle; [|reflexivity].
      apply Qle_bool_iff in Hle. lra. }
    destruct (Hfocus true _ eq_refl Hsticky) as [H1 H2].
    split; [exact H1 | split; [exact H2|]].
    intros Hnow Hfmt. rewrite H2. apply clampedTimestamp_now; assumption.
  - intros Hno.
    assert (Hsticky : shouldStickySwitchToLiveMode p s (set_focusedTimestamp ts) = false).
    { unfold shouldStickySwitchToLiveMode. fold offset.
      destruct Hno as [Hlive | [Hshow | Hfar]].
      - rewrite Hlive, andb_false_r. reflexivity.
      - rewrite Hshow, andb_false_r. reflexivity.
      - unfold Qltb. apply Qle_bool_iff in Hfar. rewrite Hfar. reflexivity. }
    exact (Hfocus false _ eq_refl Hsticky).
Qed.

End LiveMode.

(** ** Zoom *)

Section ZoomFrame.

Context {U : TimelineUtils}.

(** Claim C10.  [zoom(d)] sets [durationMsPerPixel] to [clampedDuration d]
    and schedules the telemetry report; [focusedTimestamp], [showingLive],
    [rangeMs], [timestampNow] and [timelineWidthPx] are unchanged (zooming
    while live does not leave live mode), as are the props, the pending
    timestamp notification and the interval; no callback is called at once,
    and the report is made when the telemetry timeout expires 5000 ms
    later. *)
Theorem zoom_changes_only_duration (clock : Z) (duration : Q) (c : Component) :
  let c' := fst (step clock (Zoom duration) c) in
  durationMsPerPixel (state c') = clampedDuration clock (props c) duration
  /\ (focusedTimestamp (state c') = focusedTimestamp (state c)
      /\ showingLive (state c') = showingLive (state c)
      /\ rangeMs (state c') = rangeMs (state c)
      /\ timestampNow (state c') = timestampNow (state c)
      /\ timelineWidthPx (state c') = timelineWidthPx (state c))
  /\ (props c' = props c
      /\ delayedOnChangeTimestamp c' = delayedOnChangeTimestamp c
      /\ timer c' = timer c)
  /\ snd (step clock (Zoom duration) c) = []
  /\ delayedReportZoom c' = Debounce.call clock tt (delayedReportZoom c)
  /\ (forall later : Z, clock + 5000 <= later ->
      exists period : option string,
        snd (step later ZoomTimerExpired c') = [onTimelineZoom period]).
Proof.
  rewrite step_Zoom. cbn [fst snd].
  repeat split.
  intros later Hlater. eexists. run_handler.
  unfold Debounce.timerExpired, Debounce.call, Debounce.shouldInvoke.
  cbn [Debounce.timerId Debounce.lastCallTime Debounce.lastArgs].
  replace (5000 <=? later - clock) with true by (symmetry; apply Z.leb_le; lia).
  reflexivity.
Qed.

End ZoomFrame.

(** ** The Change channel *)

Section ChangeChannel.

Context {U : TimelineUtils}.

Lemma changes_app (out1 out2 : list Callback) :
  changes (out1 ++ out2) = changes out1 ++ changes out2.
Proof.
  induction out1 as [|cb rest IH]; [reflexivity|].
  destruct cb; cbn [app changes]; rewrite IH; reflexivity.
Qed.

Lemma run_app (trace1 trace2 : list (Z * Event)) (c : Component) :
  run (trace1 ++ trace2) c =
    (fst (run trace2 (fst (run trace1 c))),
     snd (run trace1 c) ++ snd (run trace2 (fst (run trace1 c)))).
Proof.
  revert c. induction trace1 as [|[clock e] rest IH]; intros c.
  - cbn [app run fst snd]. destruct (run trace2 c); reflexivity.
  - cbn [app run]. destruct (step clock e c) as [c1 out1]. rewrite IH.
    destruct (run rest c1) as [c2 out2]. cbn [fst snd].
    rewrite app_assoc. reflexivity.
Qed.

Lemma run_cons (clock : Z) (e : Event) (rest : list (Z * Event)) (c : Component) :
  run ((clock, e) :: rest) c =
    (fst (run rest (fst (step clock e c))),
     snd (step clock e c) ++ snd (run rest (fst (step clock e c)))).
Proof.
  cbn [run]. destruct (step clock e c) as [c1 out1]. cbn [fst snd].
  destruct (run rest c1) as [c2 out2]. reflexivity.
Qed.

(** The timeout changes nothing but the debounced function itself. *)
Lemma step_expired_frame (clock : Z) (c : Component) :
  let c' := fst (step clock ChangeTimerExpired c) in
  props c' = props c /\ state c' = state c.
Proof.
  rewrite step_ChangeTimerExpired. cbv zeta.
  destruct (_ && _); split; reflexivity.
Qed.

Lemma run_expiries_frame (times : list Z) (c : Component) :
  let c' := fst (run (expiries times) c) in
  props c' = props c /\ state c' = state c.
Proof.
  revert c. induction times as [|t rest IH]; intros c; [split; reflexivity|].
  cbn [expiries map run]. fold (expiries rest).
  pose proof (step_expired_frame t c) as Hstep.
  destruct (step t ChangeTimerExpired c) as [c1 out1].
  specialize (IH c1). destruct (run (expiries rest) c1) as [c2 out2].
  cbn [fst] in *. cbv zeta in *. intuition congruence.
Qed.

(** With no timeout armed nothing is ever delivered. *)
Lemma run_expiries_idle (times : list Z) (c : Component) :
  Debounce.timerId (delayedOnChangeTimestamp c) = false ->
  snd (run (expiries times) c) = []
  /\ delayedOnChangeTimestamp (fst (run (expiries times) c)) = delayedOnChangeTimestamp c.
Proof.
  revert c. induction times as [|t rest IH]; intros c Hidle; [split; reflexivity|].
  cbn [expiries map run]. fold (expiries rest).
  rewrite step_ChangeTimerExpired. cbv zeta. rewrite Hidle. cbn [andb].
  specialize (IH (with_change (delayedOnChangeTimestamp c) c) Hidle).
  destruct (run (expiries rest) _) as [c2 out2]. cbn [fst snd] in *.
  destruct IH as [Hout Hd]. subst out2. split; [reflexivity | exact Hd].
Qed.

(** A pending call made at [last] is delivered by the first timeout that
    runs 500 ms or more after [last], and by no other. *)
Lemma run_expiries_pending (times : list Z) (c : Component) (v : string) (last : Z) :
  delayedOnChangeTimestamp c = Debounce.Make (Some v) (Some last) true ->
  Forall (fun t => last <= t) times ->
  snd (run (expiries times) c) =
    if existsb (fun t => last + 500 <=? t) times then [onChangeTimestamp v] else [].
Proof.
  revert c. induction times as [|t rest IH]; intros c Hpending Hafter; [reflexivity|].
  inversion Hafter as [|t' rest' Ht Hrest]; subst.
  cbn [expiries map run existsb]. fold (expiries rest).
  rewrite step_ChangeTimerExpired. cbv zeta. rewrite Hpending.
  unfold Debounce.shouldInvoke.
  cbn [Debounce.timerId Debounce.lastCallTime Debounce.lastArgs andb].
  replace (t - last <? 0) with false by (symmetry; apply Z.ltb_ge; lia).
  rewrite orb_false_r.
  destruct (Z.leb_spec (last + 500) t) as [Hdue | Hearly].
  - replace (500 <=? t - last) with true by (symmetry; apply Z.leb_le; lia).
    cbn [orb].
    destruct (run_expiries_idle rest
                (with_change (Debounce.Make None (Some last) false) c) eq_refl) as [Hout _].
    destruct (run (expiries rest) _) as [c2 out2]. cbn [snd] in *. subst out2. reflexivity.
  - replace (500 <=? t - last) with false by (symmetry; apply Z.leb_gt; lia).
    cbn [orb].
    specialize (IH (with_change (Debounce.Make (Some v) (Some last) true) c) eq_refl Hrest).
    destruct (run (expiries rest) _) as [c2 out2]. cbn [snd] in *. exact IH.
Qed.

Lemma no_timeout_due (times : list Z) (deadline : Z) :
  Forall (fun t => t < deadline) times ->
  existsb (fun t => deadline <=? t) times = false.
Proof.
  induction 1 as [|t rest Ht _ IH]; [reflexivity|].
  cbn [existsb]. rewrite IH, orb_false_r. apply Z.leb_gt. exact Ht.
Qed.

Lemma some_timeout_due (times : list Z) (deadline : Z) :
  Exists (fun t => deadline <= t) times ->
  existsb (fun t => deadline <=? t) times = true.
Proof.
  induction 1 as [t rest Ht | t rest _ IH]; cbn [existsb].
  - apply orb_true_iff. left. apply Z.leb_le. exact Ht.
  - rewrite IH. apply orb_true_r.
Qed.

(** Claim C5.  [pan(t1)] followed within the 500 ms window by [pan(t2)],
    with nothing but timeouts of the debounced function in between and
    afterwards, makes exactly one [onChangeTimestamp] call, with the clamped
    [t2], once a timeout runs 500 ms or more after the second pan, and no
    call before that. *)
Theorem pan_pan_delivers_last_only
    (c : Component) (clock1 clock2 : Z) (t1 t2 : string) (early late : list Z) :
  clock1 <= clock2 < clock1 + 500 ->
  Forall (fun t => clock1 <= t <= clock2) early ->
  Forall (fun t => clock2 <= t) late ->
  let out :=
    snd (run ((clock1, Pan t1) :: expiries early
              ++ (clock2, Pan t2) :: expiries late) c) in
  (Exists (fun t => clock2 + 500 <= t) late ->
   out = [onChangeTimestamp (clampedTimestamp clock2 (props c) (state c) t2)])
  /\ (Forall (fun t => t < clock2 + 500) late -> out = []).
Proof.
  intros Hwindow Hearly Hlate out.
  assert (Hout : out =
            if existsb (fun t => clock2 + 500 <=? t) late
            then [onChangeTimestamp (clampedTimestamp clock2 (props c) (state c) t2)]
            else []).
  { subst out. rewrite run_cons, step_Pan. cbv zeta. cbn [fst snd app].
    set (c1 := with_state _ (with_change _ c)).
    rewrite run_app. cbn [snd].
    assert (Hquiet : snd (run (expiries early) c1) = []).
    { rewrite (run_expiries_pending early c1 _ clock1 eq_refl).
      - rewrite no_timeout_due; [reflexivity|].
        eapply Forall_impl; [|exact Hearly]. cbv beta. intros t Ht. lia.
      - eapply Forall_impl; [|exact Hearly]. cbv beta. intros t Ht. lia. }
    rewrite Hquiet. cbn [app].
    destruct (run_expiries_frame early c1) as [Hprops Hstate].
    set (c2 := fst (run (expiries early) c1)) in *.
    rewrite run_cons, step_Pan. cbv zeta. cbn [fst snd app].
    rewrite Hprops, Hstate.
    change (clampedTimestamp clock2 (props c1) (state c1) t2)
      with (clampedTimestamp clock2 (props c) (state c) t2).
    set (c3 := with_state _ (with_change _ c2)).
    exact (run_expiries_pending late c3 _ clock2 eq_refl Hlate). }
  split.
  - intros Hdue. rewrite Hout, some_timeout_due; [reflexivity | exact Hdue].
  - intros Hnone. rewrite Hout, no_timeout_due; [reflexivity | exact Hnone].
Qed.

(** What a jump does to the pending call, by cases on whether the clamped
    timestamp is new. *)
Lemma jump_cases (clock : Z) (ts : string) (c : Component) :
  let focused := clampedTimestamp clock (props c) (state c) ts in
  let c' := fst (step clock (Jump ts) c) in
  let out := snd (step clock (Jump ts) c) in
  (focused <> focusedTimestamp (state c)
   /\ out = [onChangeTimestamp focused; onTimelineLabelClick]
   /\ delayedOnChangeTimestamp c' = Debounce.cancel (delayedOnChangeTimestamp c)
   /\ state c' = set_focusedTimestamp focused (set_showingLive false (state c)))
  \/ (focused = focusedTimestamp (state c)
      /\ out = [onTimelineLabelClick]
      /\ delayedOnChangeTimestamp c' = delayedOnChangeTimestamp c
      /\ state c' = set_showingLive false (state c)).
Proof.
  intros focused c' out. subst c' out. rewrite step_Jump. cbv zeta. fold focused.
  destruct (String.eqb_spec focused (focusedTimestamp (state c))) as [Hsame | Hdiff];
    cbn [fst snd]; [right | left]; repeat split; assumption.
Qed.

(** Claim C6, as amended.  [jump(t)] sets [showingLive] to false.  If the
    clamped [t] differs from the current [focusedTimestamp], it cancels the
    pending Change-channel call (no timeout delivers anything afterwards),
    calls [onChangeTimestamp] at once with the clamped [t] and makes it the
    [focusedTimestamp].  If the clamped [t] equals the current
    [focusedTimestamp], that field is unchanged, [onChangeTimestamp] is not
    called and a pending Change-channel call stays pending. *)
Theorem jump_commits_when_changed (clock : Z) (ts : string) (c : Component) :
  let focused := clampedTimestamp clock (props c) (state c) ts in
  let c' := fst (step clock (Jump ts) c) in
  let out := snd (step clock (Jump ts) c) in
  showingLive (state c') = false
  /\ focusedTimestamp (state c') = focused
  /\ (focused <> focusedTimestamp (state c) ->
      out = [onChangeTimestamp focused; onTimelineLabelClick]
      /\ delayedOnChangeTimestamp c' = Debounce.cancel (delayedOnChangeTimestamp c)
      /\ forall times : list Z, snd (run (expiries times) c') = [])
  /\ (focused = focusedTimestamp (state c) ->
      focusedTimestamp (state c') = focusedTimestamp (state c)
      /\ out = [onTimelineLabelClick]
      /\ delayedOnChangeTimestamp c' = delayedOnChangeTimestamp c).
Proof.
  intros focused c' out.
  destruct (jump_cases clock ts c)
    as [(Hdiff & Hout & Hd & Hs) | (Hsame & Hout & Hd & Hs)].
  - fold focused in Hdiff. fold focused c' out in Hout, Hd, Hs. rewrite Hs.
    split; [reflexivity | split; [reflexivity | split]].
    + intros _. split; [exact Hout | split; [exact Hd|]].
      intros times. apply run_expiries_idle. rewrite Hd. reflexivity.
    + intros Hsame. contradiction.
  - fold focused in Hsame. fold focused c' out in Hout, Hd, Hs. rewrite Hs.
    split; [reflexivity | split; [symmetry; exact Hsame | split]].
    + intros Hdiff. contradiction.
    + intros _. split; [reflexivity | split; [exact Hout | exact Hd]].
Qed.

(** Claim C2, as amended.  While a Change-channel delivery is pending, a
    [jump(t)] whose clamped [t] differs from the current [focusedTimestamp]
    cancels it: it never fires afterwards, whenever the timeouts run and
    whether or not its delay had elapsed when the jump arrived.  A [jump(t)]
    to the current [focusedTimestamp] and [toggleLive(b)] leave the pending
    delivery in place, and it fires when its timeout runs 500 ms or more
    after the call that scheduled it. *)
Theorem pending_change_cancellation
    (clock : Z) (c : Component) (pending : string) (last : Z) :
  delayedOnChangeTimestamp c = Debounce.Make (Some pending) (Some last) true ->
  (forall ts : string,
     clampedTimestamp clock (props c) (state c) ts <> focusedTimestamp (state c) ->
     forall times : list Z,
       snd (run (expiries times) (fst (step clock (Jump ts) c))) = [])
  /\ (forall (ts : string) (later : Z),
        clampedTimestamp clock (props c) (state c) ts = focusedTimestamp (state c) ->
        last + 500 <= later ->
        snd (step later ChangeTimerExpired (fst (step clock (Jump ts) c)))
        = [onChangeTimestamp pending])
  /\ (forall (b : bool) (later : Z),
        last + 500 <= later ->
        changes (snd (step clock (ToggleLive b) c)) = []
        /\ snd (step later ChangeTimerExpired (fst (step clock (ToggleLive b) c)))
           = [onChangeTimestamp pending]).
Proof.
  intros Hpending.
  assert (Hfire : forall (later : Z) (c' : Component),
            delayedOnChangeTimestamp c' = delayedOnChangeTimestamp c ->
            last + 500 <= later ->
            snd (step later ChangeTimerExpired c') = [onChangeTimestamp pending]).
  { intros later c' Hsame Hlater. rewrite step_ChangeTimerExpired. cbv zeta.
    rewrite Hsame, Hpending. unfold Debounce.shouldInvoke.
    cbn [Debounce.timerId Debounce.lastCallTime Debounce.lastArgs andb].
    replace (500 <=? later - last) with true by (symmetry; apply Z.leb_le; lia).
    reflexivity. }
  split; [|split].
  - intros ts Hdiff times.
    destruct (jump_cases clock ts c) as [(_ & _ & Hd & _) | (Hsame & _)];
      [|contradiction].
    apply run_expiries_idle. rewrite Hd. reflexivity.
  - intros ts later Hsame Hlater. apply Hfire; [|exact Hlater].
    destruct (jump_cases clock ts c) as [(Hdiff & _) | (_ & _ & Hd & _)];
      [contradiction | exact Hd].
  - intros b later Hlater. split.
    + rewrite step_ToggleLive. reflexivity.
    + apply Hfire; [|exact Hlater]. rewrite step_ToggleLive. reflexivity.
Qed.

End ChangeChannel.

(** * Scenarios

    Everything below runs on the ISO instance [isoUtils], in the session
    [scenario]: history from 1 January 2020, now 11 January 2020. *)

(** ** ClampPolicy *)

(** A timestamp past now is clipped to now; one inside the interval is a
    fixed point. *)
Lemma clampedTimestamp_in_range_fixed_point_witness :
  let p := scenarioProps true false in
  let s := state (scenario true false) in
  (timestampNow s <> EmptyString /\ fromEarliest p (timestampNow s))
  /\ (ts_le "2020-01-01T00:00:00Z" (clampedTimestamp jan11 p s pastNow)
      /\ ts_le (clampedTimestamp jan11 p s pastNow) "2020-01-11T00:00:00Z")
  /\ clampedTimestamp jan11 p s jan06 = jan06.
Proof.
  intros p s.
  assert (Hnow : timestampNow s <> EmptyString) by (vm_compute; discriminate).
  assert (Hspan : fromEarliest p (timestampNow s)) by (vm_compute; reflexivity).
  split; [split; assumption | split].
  - exact (proj1 (clampedTimestamp_in_range_fixed_point jan11 p s pastNow Hnow Hspan)).
  - apply (proj2 (proj2 (clampedTimestamp_in_range_fixed_point jan11 p s jan06 Hnow Hspan)));
      vm_compute; reflexivity.
Defined.

(** Claim C8 as stated fails: a timestamp with a fraction of a second is
    within the range, as a string and as an instant, and comes back
    truncated to the second, not unchanged. *)
Lemma clampedTimestamp_drops_the_fraction :
  (ts_le "2020-01-01T00:00:00Z" "2020-01-06T00:00:00.500Z"
   /\ ts_le "2020-01-06T00:00:00.500Z" "2020-01-11T00:00:00Z")
  /\ moment "2020-01-01T00:00:00Z" <= moment "2020-01-06T00:00:00.500Z"
     <= moment "2020-01-11T00:00:00Z"
  /\ clampedTimestamp jan11 (scenarioProps true false) (state (scenario true false))
       "2020-01-06T00:00:00.500Z" = "2020-01-06T00:00:00Z"%string
  /\ clampedTimestamp jan11 (scenarioProps true false) (state (scenario true false))
       "2020-01-06T00:00:00.500Z" <> "2020-01-06T00:00:00.500Z"%string.
Proof.
  split; [split; reflexivity | split; [split; vm_compute; discriminate | split]].
  - reflexivity.
  - vm_compute. discriminate.
Qed.

(** Five days of history against ten. *)
Lemma maxDurationMsPerTimelinePx_monotone_witness :
  availableTimelineDurationMs jan11 (Some jan06)
    <= availableTimelineDurationMs jan11 (Some "2020-01-01T00:00:00Z"%string)
  /\ (maxDurationMsPerTimelinePx jan11 (Some jan06)
      <= maxDurationMsPerTimelinePx jan11 (Some "2020-01-01T00:00:00Z"%string))%Q.
Proof.
  assert (Hspan : availableTimelineDurationMs jan11 (Some jan06)
                  <= availableTimelineDurationMs jan11 (Some "2020-01-01T00:00:00Z"%string)).
  { vm_compute. discriminate. }
  split; [exact Hspan|].
  exact (maxDurationMsPerTimelinePx_monotone jan11 jan11 _ _ Hspan).
Defined.

(** The scenario of claim C4: from 1 January to 11 January 2020. *)
Lemma ten_day_span_zoom_levels_witness :
  formattedTimestamp jan11 None = "2020-01-11T00:00:00Z"%string
  /\ availableTimelineDurationMs jan11 (Some "2020-01-01T00:00:00Z"%string) = 10 * 86400000
  /\ (maxDurationMsPerTimelinePx jan11 (Some "2020-01-01T00:00:00Z"%string) == 2160000)%Q
  /\ (initialDurationMsPerTimelinePx jan11 (Some "2020-01-01T00:00:00Z"%string) == 60000)%Q.
Proof.
  assert (Hspan : availableTimelineDurationMs jan11 (Some "2020-01-01T00:00:00Z"%string)
                  = 10 * 86400000) by (vm_compute; reflexivity).
  pose proof (ten_day_span_zoom_levels jan11 _ Hspan) as (Hmax & _ & _ & Hinit).
  split; [vm_compute; reflexivity | split; [exact Hspan | split; assumption]].
Defined.

(** Claim C4 as stated fails: 36,000,000 ms per pixel is not the maximal
    zoom-out level of the ten-day span. *)
Lemma ten_day_span_max_is_not_36000000 :
  availableTimelineDurationMs jan11 (Some "2020-01-01T00:00:00Z"%string) = 864000000
  /\ ~ (maxDurationMsPerTimelinePx jan11 (Some "2020-01-01T00:00:00Z"%string) == 36000000)%Q.
Proof.
  split; [vm_compute; reflexivity|].
  intros Heq. vm_compute in Heq. discriminate Heq.
Qed.

(** ** Live mode *)

(** A session without live mode, started with the [showingLive] prop false,
    is taken through pans, a pan button, a jump, a tick and
    [toggleLive(false)]. *)
Lemma showingLive_without_live_mode_witness :
  hasLiveMode (scenarioProps false false) = false
  /\ showingLive (state (scenario false false)) = false
  /\ showingLive
       (state (fst (run [(jan11 + 100, Pan jan06); (jan11 + 200, PanRelease);
                         (jan11 + 300, PanButton pastNow); (jan11 + 400, Jump jan06);
                         (jan11 + 1000, Tick); (jan11 + 1100, ToggleLive false)]
                      (scenario false false)))) = false.
Proof.
  assert (Hoff : hasLiveMode (scenarioProps false false) = false) by reflexivity.
  pose proof (showingLive_without_live_mode jan11 _ Hoff) as (Hinit & _ & Hstays & _).
  split; [exact Hoff | split; [exact Hinit|]].
  apply (Hstays eq_refl).
  repeat constructor; cbn [snd]; discriminate.
Defined.

(** Claim C1 as stated fails: with the default props live mode is not
    supported and [showingLive] is true from the start; and
    [toggleLive(true)] turns it on in a session that started with it off. *)
Lemma showingLive_true_without_live_mode :
  hasLiveMode (props defaultSession) = false
  /\ showingLive (state defaultSession) = true
  /\ hasLiveMode (props (scenario false false)) = false
  /\ showingLive (state (scenario false false)) = false
  /\ showingLive
       (state (fst (step (jan11 + 100) (ToggleLive true) (scenario false false)))) = true.
Proof. repeat split. Qed.

(** A live session ticks one second after mounting; a paused one is
    toggled live. *)
Lemma live_focus_follows_now_witness :
  (hasLiveMode (props (scenario true true)) = true
   /\ showingLive (state (scenario true true)) = true
   /\ timer (scenario true true) = true)
  /\ focusedTimestamp (state (fst (step (jan11 + 1000) Tick (scenario true true))))
     = "2020-01-11T00:00:01Z"%string
  /\ focusedTimestamp (state (fst (step (jan11 + 100) (ToggleLive true) (scenario true false))))
     = "2020-01-11T00:00:00Z"%string.
Proof.
  split; [repeat split|].
  split.
  - destruct (proj1 (live_focus_follows_now (jan11 + 1000) (scenario true true))
                eq_refl eq_refl eq_refl) as [Hfocus _].
    rewrite Hfocus. vm_compute. reflexivity.
  - destruct (proj2 (live_focus_follows_now (jan11 + 100) (scenario true false)))
      as [Hfocus _].
    rewrite Hfocus. vm_compute. reflexivity.
Defined.

(** Claim C3 as stated fails: with the default props [showingLive] is true,
    and after a tick [focusedTimestamp] is still 5 January while
    [timestampNow] has moved on. *)
Lemma tick_without_live_mode_leaves_focus :
  showingLive (state defaultSession) = true
  /\ showingLive (state (fst (step (jan11 + 1000) Tick defaultSession))) = true
  /\ focusedTimestamp (state (fst (step (jan11 + 1000) Tick defaultSession)))
     = "2020-01-05T00:00:00Z"%string
  /\ timestampNow (state (fst (step (jan11 + 1000) Tick defaultSession)))
     = "2020-01-11T00:00:01Z"%string
  /\ focusedTimestamp (state (fst (step (jan11 + 1000) Tick defaultSession)))
     <> timestampNow (state (fst (step (jan11 + 1000) Tick defaultSession))).
Proof. repeat split. vm_compute. discriminate. Qed.

(** The pan button 100 pixels past now snaps to live; five days before now
    it commits the panned timestamp. *)
Lemma panButton_sticky_switch_witness :
  (hasLiveMode (props (scenario true false)) = true
   /\ showingLive (state (scenario true false)) = false)
  /\ (showingLive (state afterPanButton) = true
      /\ focusedTimestamp (state afterPanButton) = timestampNow (state (scenario true false)))
  /\ (showingLive (state (fst (step (jan11 + 100) (PanButton jan06) (scenario true false))))
      = false
      /\ focusedTimestamp (state (fst (step (jan11 + 100) (PanButton jan06) (scenario true false))))
         = jan06).
Proof.
  split; [split; reflexivity | split].
  - destruct (proj1 (panButton_sticky_switch (jan11 + 100) pastNow (scenario true false)))
      as (Hlive & _ & Hnow).
    + reflexivity.
    + reflexivity.
    + vm_compute. reflexivity.
    + split; [exact Hlive|]. apply Hnow; [vm_compute; discriminate | vm_compute; reflexivity].
  - destruct (proj2 (panButton_sticky_switch (jan11 + 100) jan06 (scenario true false)))
      as (Hpaused & Hfocus).
    + right. right. vm_compute. discriminate.
    + split; [exact Hpaused|]. rewrite Hfocus. vm_compute. reflexivity.
Defined.

(** Claim C7 as stated fails.  In the state focused on the raw pan-button
    timestamp, 100 pixels past now is not within 10 pixels of zero, yet the
    pan button switches to live.  (Should the state focused on the clamped
    timestamp be meant instead: in [shortHistory] a click before the
    earliest timestamp puts now 6 pixels from the clamped focus, and the pan
    button does not switch to live.) *)
Lemma panButton_sticky_is_one_sided :
  (hasLiveMode (props (scenario true false)) = true
   /\ showingLive (state (scenario true false)) = false
   /\ (getTimeScale (set_focusedTimestamp pastNow (state (scenario true false)))
         (moment (timestampNow (state (scenario true false)))) == -100)%Q
   /\ showingLive (state afterPanButton) = true)
  /\ (hasLiveMode (props shortHistory) = true
      /\ showingLive (state shortHistory) = false
      /\ (getTimeScale
            (set_focusedTimestamp
               (clampedTimestamp (jan11 + 100) (props shortHistory) (state shortHistory)
                  beforeEarliest)
               (state shortHistory))
            (moment (timestampNow (state shortHistory))) == 6)%Q
      /\ showingLive
           (state (fst (step (jan11 + 100) (PanButton beforeEarliest) shortHistory)))
         = false).
Proof. repeat split. Qed.

(** ** Zoom *)

(** Zooming out as far as possible while live. *)
Lemma zoom_changes_only_duration_witness :
  jan11 + 100 + 5000 <= jan11 + 5100
  /\ showingLive (state (fst (step (jan11 + 100) (Zoom 1000000000) (scenario true true))))
     = true
  /\ (durationMsPerPixel
        (state (fst (step (jan11 + 100) (Zoom 1000000000) (scenario true true))))
      == 2160000)%Q
  /\ exists period : option string,
       snd (step (jan11 + 5100) ZoomTimerExpired
              (fst (step (jan11 + 100) (Zoom 1000000000) (scenario true true))))
       = [onTimelineZoom period].
Proof.
  assert (Hlater : jan11 + 100 + 5000 <= jan11 + 5100) by (vm_compute; discriminate).
  destruct (zoom_changes_only_duration (jan11 + 100) 1000000000 (scenario true true))
    as (Hduration & (_ & Hlive & _) & _ & _ & _ & Hreport).
  split; [exact Hlater | split; [|split]].
  - rewrite Hlive. reflexivity.
  - rewrite Hduration. vm_compute. reflexivity.
  - exact (Hreport _ Hlater).
Defined.

(** ** The Change channel *)

(** Two pans 300 ms apart; the timeout runs 400 ms after the first pan (too
    early, it is re-armed), then 500 ms after the second. *)
Lemma pan_pan_delivers_last_only_witness :
  jan11 + 100 <= jan11 + 400 < jan11 + 100 + 500
  /\ snd (run ((jan11 + 100, Pan jan06) :: expiries []
               ++ (jan11 + 400, Pan "2020-01-07T00:00:00Z"%string)
                  :: expiries [jan11 + 500; jan11 + 900; jan11 + 1400])
            (scenario true false))
     = [onChangeTimestamp "2020-01-07T00:00:00Z"].
Proof.
  assert (Hwindow : jan11 + 100 <= jan11 + 400 < jan11 + 100 + 500).
  { split; vm_compute; [discriminate | reflexivity]. }
  split; [exact Hwindow|].
  destruct (pan_pan_delivers_last_only (scenario true false) _ _
              jan06 "2020-01-07T00:00:00Z"%string [] [jan11 + 500; jan11 + 900; jan11 + 1400]
              Hwindow) as [Hone _].
  - constructor.
  - repeat constructor; vm_compute; discriminate.
  - rewrite Hone; [vm_compute; reflexivity|].
    apply Exists_cons_tl, Exists_cons_hd. vm_compute. discriminate.
Defined.

(** After a pan to 6 January: a jump to 7 January cancels the pending call,
    a jump to 6 January does not. *)
Lemma jump_commits_when_changed_witness :
  (clampedTimestamp (jan11 + 200) (props afterPan) (state afterPan) "2020-01-07T00:00:00Z"
   <> focusedTimestamp (state afterPan)
   /\ clampedTimestamp (jan11 + 200) (props afterPan) (state afterPan) jan06
      = focusedTimestamp (state afterPan))
  /\ snd (run (expiries [jan11 + 600; jan11 + 5000])
            (fst (step (jan11 + 200) (Jump "2020-01-07T00:00:00Z") afterPan))) = []
  /\ delayedOnChangeTimestamp afterPanJump = delayedOnChangeTimestamp afterPan.
Proof.
  assert (Hdiff : clampedTimestamp (jan11 + 200) (props afterPan) (state afterPan)
                    "2020-01-07T00:00:00Z" <> focusedTimestamp (state afterPan)).
  { vm_compute. discriminate. }
  assert (Hsame : clampedTimestamp (jan11 + 200) (props afterPan) (state afterPan) jan06
                  = focusedTimestamp (state afterPan)).
  { vm_compute. reflexivity. }
  split; [split; assumption | split].
  - destruct (jump_commits_when_changed (jan11 + 200) "2020-01-07T00:00:00Z" afterPan)
      as (_ & _ & Hchanged & _).
    destruct (Hchanged Hdiff) as (_ & _ & Hquiet). apply Hquiet.
  - destruct (jump_commits_when_changed (jan11 + 200) jan06 afterPan)
      as (_ & _ & _ & Hkept).
    destruct (Hkept Hsame) as (_ & _ & Hpending). exact Hpending.
Defined.

(** Claim C6 as stated fails: a jump to the timestamp just panned to does
    not cancel the pending call, which is delivered when its timeout runs. *)
Lemma jump_to_focus_keeps_pending_call :
  delayedOnChangeTimestamp afterPan = Debounce.Make (Some jan06) (Some (jan11 + 100)) true
  /\ snd (step (jan11 + 200) (Jump jan06) afterPan) = [onTimelineLabelClick]
  /\ delayedOnChangeTimestamp afterPanJump
     = Debounce.Make (Some jan06) (Some (jan11 + 100)) true
  /\ snd (step (jan11 + 700) ChangeTimerExpired afterPanJump) = [onChangeTimestamp jan06].
Proof. repeat split. Qed.

(** The pending pan of [afterPan], then a jump or a toggle. *)
Lemma pending_change_cancellation_witness :
  delayedOnChangeTimestamp afterPan = Debounce.Make (Some jan06) (Some (jan11 + 100)) true
  /\ snd (run (expiries [jan11 + 200; jan11 + 700])
            (fst (step (jan11 + 200) (Jump "2020-01-07T00:00:00Z") afterPan))) = []
  /\ snd (step (jan11 + 700) ChangeTimerExpired afterPanJump) = [onChangeTimestamp jan06]
  /\ snd (step (jan11 + 700) ChangeTimerExpired afterPanToggle) = [onChangeTimestamp jan06].
Proof.
  assert (Hpending : delayedOnChangeTimestamp afterPan
                     = Debounce.Make (Some jan06) (Some (jan11 + 100)) true) by reflexivity.
  destruct (pending_change_cancellation (jan11 + 200) afterPan jan06 (jan11 + 100) Hpending)
    as (Hcancelled & Hjump & Htoggle).
  assert (Hdue : jan11 + 100 + 500 <= jan11 + 700) by (vm_compute; discriminate).
  split; [exact Hpending | split; [|split]].
  - apply Hcancelled. vm_compute. discriminate.
  - apply Hjump; [vm_compute; reflexivity | exact Hdue].
  - apply (Htoggle true (jan11 + 700) Hdue).
Defined.

(** Claim C2 as stated fails: [toggleLive(true)] does not cancel the pending
    delivery of the pan, which fires 600 ms after the pan. *)
Lemma toggleLive_keeps_pending_delivery :
  delayedOnChangeTimestamp afterPan = Debounce.Make (Some jan06) (Some (jan11 + 100)) true
  /\ delayedOnChangeTimestamp afterPanToggle
     = Debounce.Make (Some jan06) (Some (jan11 + 100)) true
  /\ snd (step (jan11 + 700) ChangeTimerExpired afterPanToggle) = [onChangeTimestamp jan06].
Proof. repeat split. Qed.

(** * Further properties of the component *)

(** ** Zoom levels *)

Section FurtherProperties.

Context {U : TimelineUtils} {V : MomentValidity}.

Lemma maxDuration_bounds (clock : Z) (earliest : option string) :
  (500 <= maxDurationMsPerTimelinePx clock earliest <= 3 * 86400000)%Q.
Proof.
  unfold maxDurationMsPerTimelinePx, minDurationMsPerTimelinePx.
  apply clamp_bounds. discriminate.
Qed.

Lemma clamp_in_range (x lower upper : Q) :
  (lower <= x <= upper)%Q -> clamp x lower upper = x.
Proof.
  intros [Hlo Hhi]. unfold clamp.
  apply Qle_bool_iff in Hlo. apply Qle_bool_iff in Hhi.
  rewrite Hhi, Hlo. reflexivity.
Qed.

(** For an earliest timestamp that is a valid date, [clampedDuration] lands
    between the two zoom bounds, which themselves lie between 500 ms and
    three days per pixel; a duration already between the bounds is returned
    as it is, and clamping twice is clamping once. *)
Theorem clampedDuration_within_zoom_bounds (clock : Z) (p : Props) (duration : Q) :
  validDates clock (earliestTimestamp p) ->
  let maxDurationMs := maxDurationMsPerTimelinePx clock (earliestTimestamp p) in
  (minDurationMsPerTimelinePx <= clampedDuration clock p duration <= maxDurationMs)%Q
  /\ (500 <= maxDurationMs <= 3 * 86400000)%Q
  /\ ((minDurationMsPerTimelinePx <= duration <= maxDurationMs)%Q ->
      clampedDuration clock p duration = duration)
  /\ clampedDuration clock p (clampedDuration clock p duration)
     = clampedDuration clock p duration.
Proof.
  intros _ maxDurationMs.
  pose proof (maxDuration_bounds clock (earliestTimestamp p)) as Hmax.
  fold maxDurationMs in Hmax.
  assert (Hin : (minDurationMsPerTimelinePx
                 <= clampedDuration clock p duration <= maxDurationMs)%Q).
  { unfold clampedDuration. apply clamp_bounds. exact (proj1 Hmax). }
  split; [exact Hin | split; [exact Hmax | split]].
  - intros Hrange. unfold clampedDuration. apply clamp_in_range. exact Hrange.
  - unfold clampedDuration at 1. apply clamp_in_range. exact Hin.
Qed.

(** For an earliest timestamp that is a valid date, the zoom level a
    session starts at is between 500 ms and one minute per pixel, and never
    beyond the maximal zoom-out level of that moment. *)
Theorem initialDuration_is_a_valid_zoom (clock : Z) (earliest : option string) :
  validDates clock earliest ->
  (500 <= initialDurationMsPerTimelinePx clock earliest <= 60000)%Q
  /\ (initialDurationMsPerTimelinePx clock earliest
      <= maxDurationMsPerTimelinePx clock earliest)%Q.
Proof.
  intros _.
  pose proof (maxDuration_bounds clock earliest) as [Hlo Hhi].
  unfold initialDurationMsPerTimelinePx, minDurationMsPerTimelinePx.
  set (m := maxDurationMsPerTimelinePx clock earliest) in *.
  unfold clamp. number_cases; repeat split; lra.
Qed.

Lemma clampedDuration_absolute_bounds (clock : Z) (p : Props) (duration : Q) :
  (500 <= clampedDuration clock p duration <= 3 * 86400000)%Q.
Proof.
  pose proof (maxDuration_bounds clock (earliestTimestamp p)) as [Hlo Hhi].
  assert (Hin : (minDurationMsPerTimelinePx <= clampedDuration clock p duration
                 <= maxDurationMsPerTimelinePx clock (earliestTimestamp p))%Q).
  { unfold clampedDuration. apply clamp_bounds. exact Hlo. }
  unfold minDurationMsPerTimelinePx in Hin. split; lra.
Qed.

Lemma step_SetRange (clock : Z) (range : Q) (c : Component) :
  step clock (SetRange range) c =
    (with_state
       (set_durationMsPerPixel
          (clampedDuration clock (props c) (range / (timelineWidthPx (state c) / 3)))
          (set_rangeMs range (state c))) c,
     [onChangeRange range]).
Proof. reflexivity. Qed.

Lemma step_InputEdit (clock : Z) (ts : string) (c : Component) :
  step clock (InputEdit ts) c =
    let focused := clampedTimestamp clock (props c) (state c) ts in
    if String.eqb focused (focusedTimestamp (state c))
    then (c, [onTimestampInputEdit])
    else (with_state (set_focusedTimestamp focused (state c))
            (with_change (Debounce.cancel (delayedOnChangeTimestamp c)) c),
          [onChangeTimestamp focused; onTimestampInputEdit]).
Proof. run_handler. destruct (String.eqb _ _); reflexivity. Qed.

Lemma step_ZoomTimerExpired (clock : Z) (c : Component) :
  step clock ZoomTimerExpired c =
    let d := delayedReportZoom c in
    if Debounce.timerId d && Debounce.shouldInvoke 5000 clock d then
      (with_zoom (Debounce.Make None (Debounce.lastCallTime d) false) c,
       match Debounce.lastArgs d with
       | Some _ => [onTimelineZoom (zoomedPeriodAt (durationMsPerPixel (state c)))]
       | None => []
       end)
    else (with_zoom d c, []).
Proof.
  run_handler. unfold Debounce.timerExpired.
  destruct (Debounce.timerId _); [|reflexivity].
  destruct (Debounce.shouldInvoke _ _ _); [|reflexivity].
  destruct (Debounce.lastArgs _); reflexivity.
Qed.

Lemma step_ReceiveProps (clock : Z) (ts : option string) (range : Q) (live : bool)
    (c : Component) :
  step clock (ReceiveProps ts range live) c =
    (with_props (pushedProps (props c) ts range live)
       (if (hasLiveMode (props c) && live)
           || (negb live && showingLiveProp (props c))
           || negb (truthy ts)
        then c
        else with_state
               (set_rangeMs range
                  (set_focusedTimestamp (formattedTimestamp clock ts) (state c))) c),
     []).
Proof.
  run_handler.
  destruct (hasLiveMode (props c) && live); [reflexivity|].
  destruct (negb live && showingLiveProp (props c)); [reflexivity|].
  destruct (truthy ts); reflexivity.
Qed.

Lemma step_Tick_stopped (clock : Z) (c : Component) :
  timer c = false -> step clock Tick c = (c, []).
Proof. intros Hstopped. run_handler. rewrite Hstopped. reflexivity. Qed.

(** Split on the event and rewrite with the equation of its handler. *)
Ltac by_handler e c :=
  destruct e;
  [ destruct (timer c) eqn:?;
    [rewrite step_Tick by assumption | rewrite step_Tick_stopped by assumption]
  | rewrite step_ReceiveProps
  | idtac
  | rewrite step_Pan
  | rewrite step_PanRelease
  | rewrite step_Zoom
  | rewrite step_Jump
  | rewrite step_PanButton
  | rewrite step_SetRange
  | rewrite step_InputEdit
  | rewrite step_ToggleLive
  | idtac
  | rewrite step_ChangeTimerExpired
  | rewrite step_ZoomTimerExpired ];
  cbv zeta;
  repeat match goal with
    | |- context [if ?b then _ else _] => destruct b eqn:?
    end;
  cbn [fst snd props state delayedReportZoom delayedOnChangeTimestamp timer
       with_state with_change with_zoom with_timer with_props
       timestampNow focusedTimestamp durationMsPerPixel showingLive rangeMs
       timelineWidthPx set_timestampNow set_focusedTimestamp
       set_durationMsPerPixel set_showingLive set_rangeMs set_timelineWidthPx].

Lemma step_keeps_zoom_bounds (clock : Z) (e : Event) (c : Component) :
  (500 <= durationMsPerPixel (state c) <= 3 * 86400000)%Q ->
  (500 <= durationMsPerPixel (state (fst (step clock e c))) <= 3 * 86400000)%Q.
Proof.
  intros Hc.
  by_handler e c; try exact Hc; apply clampedDuration_absolute_bounds.
Qed.

(** A session is mounted with an earliest timestamp that is a valid date
    and taken through any events, at times whose formatted form is a valid
    date, none of them a change to a range of zero (on a timeline of width
    zero that would make the quotient [0 / 0]).  In every state it reaches,
    the zoom level is between 500 ms and three days per pixel. *)
Theorem zoom_level_always_within_absolute_bounds
    (clock : Z) (p : Props) (trace : list (Z * Event)) :
  validDates clock (earliestTimestamp p) ->
  Forall (fun ev =>
            momentIsValid (formattedTimestamp (fst ev) None) = true
            /\ forall range, snd ev = SetRange range -> ~ (range == 0)%Q)
    trace ->
  (500 <= durationMsPerPixel (state (fst (run trace (mount clock p))))
   <= 3 * 86400000)%Q.
Proof.
  intros _ _.
  assert (Hinit : (500 <= durationMsPerPixel (state (mount clock p)) <= 3 * 86400000)%Q).
  { pose proof (maxDuration_bounds clock (earliestTimestamp p)) as [Hlo Hhi].
    cbn [mount componentDidMount putTimer constructor with_timer state durationMsPerPixel].
    unfold initialDurationMsPerTimelinePx, minDurationMsPerTimelinePx.
    set (m := maxDurationMsPerTimelinePx clock (earliestTimestamp p)) in *.
    unfold clamp. number_cases; split; lra. }
  revert Hinit. generalize (mount clock p) as c.
  induction trace as [|[at_ e] rest IH]; intros c Hc; [exact Hc|].
  rewrite run_cons. cbn [fst]. apply IH. apply step_keeps_zoom_bounds. exact Hc.
Qed.

(** ** Focus *)

Lemma clampedTimestamp_range (clock : Z) (p : Props) (s : State) (raw : string) :
  timestampNow s <> EmptyString ->
  fromEarliest p (timestampNow s) ->
  fromEarliest p (clampedTimestamp clock p s raw)
  /\ ts_le (clampedTimestamp clock p s raw) (timestampNow s).
Proof.
  intros Hnow Hspan.
  assert (Hne : negb (String.eqb (timestampNow s) "") = true).
  { apply negb_true_iff, String.eqb_neq. exact Hnow. }
  unfold fromEarliest, clampedTimestamp in *. rewrite Hne. cbn [andb].
  set (formatted := formattedTimestamp clock (Some raw)).
  destruct (earliestTimestamp p) as [start|].
  - destruct (truthy (Some start) && String.ltb formatted start) eqn:Hlow.
    + destruct (String.ltb (timestampNow s) start) eqn:Hup.
      * split; [exact Hspan | apply ts_le_refl].
      * split; [apply ts_le_refl | apply ltb_false_le; exact Hup].
    + destruct (String.ltb (timestampNow s) formatted) eqn:Hup.
      * split; [exact Hspan | apply ts_le_refl].
      * split; [|apply ltb_false_le; exact Hup].
        apply andb_false_iff in Hlow. destruct Hlow as [Hfalsy | Hlt].
        -- cbn [truthy] in Hfalsy. apply negb_false_iff, String.eqb_eq in Hfalsy.
           subst start. unfold ts_le. destruct formatted; reflexivity.
        -- apply ltb_false_le. exact Hlt.
  - destruct (String.ltb (timestampNow s) formatted) eqn:Hup.
    + split; [exact I | apply ts_le_refl].
    + split; [exact I | apply ltb_false_le; exact Hup].
Qed.

(** Every gesture that commits a timestamp (pan, jump, input edit, pan
    button) leaves [focusedTimestamp] between the earliest timestamp and
    [timestampNow] in the order the code compares timestamps in, which is
    the order of the strings character by character ([ts_le]; the earliest
    timestamp is compared as the prop spells it, so this is the order of
    the instants only for an earliest timestamp spelled the way timestamps
    are formatted).  This holds whatever timestamp the gesture was given and
    wherever the focus was, provided the interval is not empty in that
    order. *)
Theorem gestures_leave_focus_in_range
    (clock : Z) (ts : string) (e : Event) (c : Component) :
  timestampNow (state c) <> EmptyString ->
  fromEarliest (props c) (timestampNow (state c)) ->
  In e [Pan ts; Jump ts; InputEdit ts; PanButton ts] ->
  let c' := fst (step clock e c) in
  fromEarliest (props c') (focusedTimestamp (state c'))
  /\ ts_le (focusedTimestamp (state c')) (timestampNow (state c')).
Proof.
  intros Hnow Hspan He c'.
  assert (Hclamp : forall raw,
            fromEarliest (props c) (clampedTimestamp clock (props c) (state c) raw)
            /\ ts_le (clampedTimestamp clock (props c) (state c) raw)
                 (timestampNow (state c))).
  { intros raw. apply clampedTimestamp_range; assumption. }
  assert (Hsame : forall raw,
            String.eqb (clampedTimestamp clock (props c) (state c) raw)
              (focusedTimestamp (state c)) = true ->
            fromEarliest (props c) (focusedTimestamp (state c))
            /\ ts_le (focusedTimestamp (state c)) (timestampNow (state c))).
  { intros raw Heq. apply String.eqb_eq in Heq. rewrite <- Heq. apply Hclamp. }
  subst c'. cbn [In] in He.
  destruct He as [He | [He | [He | [He | []]]]]; subst e.
  - rewrite step_Pan. apply Hclamp.
  - rewrite step_Jump. cbv zeta.
    destruct (String.eqb _ _) eqn:Heq; [exact (Hsame _ Heq) | apply Hclamp].
  - rewrite step_InputEdit. cbv zeta.
    destruct (String.eqb _ _) eqn:Heq; [exact (Hsame _ Heq) | apply Hclamp].
  - rewrite step_PanButton. cbv zeta.
    destruct (String.eqb _ _) eqn:Heq; [exact (Hsame _ Heq) | apply Hclamp].
Qed.

(** Editing the timestamp input never touches [showingLive]; and a second
    edit to the same timestamp changes nothing and does not call
    [onChangeTimestamp] again (formatting a given timestamp does not depend
    on the time of the call). *)
Theorem input_edit_notifies_once
    (clock later : Z) (ts : string) (c : Component) :
  formattedTimestamp later (Some ts) = formattedTimestamp clock (Some ts) ->
  let c' := fst (step clock (InputEdit ts) c) in
  showingLive (state c') = showingLive (state c)
  /\ focusedTimestamp (state c') = clampedTimestamp clock (props c) (state c) ts
  /\ step later (InputEdit ts) c' = (c', [onTimestampInputEdit]).
Proof.
  intros Hfmt c'.
  assert (Hfocus : showingLive (state c') = showingLive (state c)
                   /\ focusedTimestamp (state c') = clampedTimestamp clock (props c) (state c) ts
                   /\ props c' = props c
                   /\ timestampNow (state c') = timestampNow (state c)).
  { subst c'. rewrite step_InputEdit. cbv zeta.
    destruct (String.eqb _ _) eqn:Heq; cbn [fst]; repeat split.
    apply String.eqb_eq in Heq. symmetry. exact Heq. }
  destruct Hfocus as (Hlive & Hfoc & Hprops & Hnow).
  split; [exact Hlive | split; [exact Hfoc|]].
  rewrite step_InputEdit. cbv zeta.
  assert (Hagain : clampedTimestamp later (props c') (state c') ts
                   = focusedTimestamp (state c')).
  { rewrite Hfoc. unfold clampedTimestamp. rewrite Hfmt, Hprops, Hnow. reflexivity. }
  rewrite Hagain, String.eqb_refl. reflexivity.
Qed.

(** ** Who changes what *)

(** Each field of the state has few writers: [timestampNow] changes only
    on a tick, [timelineWidthPx] only on a resize, [durationMsPerPixel] only
    on a zoom or a range change, [rangeMs] only on a range change or pushed
    props, [showingLive] only on a pan, a release, a jump, a pan button or
    the live toggle; zooming, range changes, resizing, unmounting and the
    two timeouts never move [focusedTimestamp]; only unmounting stops the
    interval; and [onChangeTimestamp] is never called during a tick, a pan,
    a zoom, a range change, a resize, a toggle or a push of props. *)
Theorem state_fields_have_few_writers (clock : Z) (e : Event) (c : Component) :
  let s := state c in
  let s' := state (fst (step clock e c)) in
  (timestampNow s' <> timestampNow s -> e = Tick)
  /\ (timelineWidthPx s' <> timelineWidthPx s -> exists width, e = Resize width)
  /\ (durationMsPerPixel s' <> durationMsPerPixel s ->
      exists d, e = Zoom d \/ e = SetRange d)
  /\ (rangeMs s' <> rangeMs s ->
      (exists range, e = SetRange range)
      \/ exists ts range live, e = ReceiveProps ts range live)
  /\ (showingLive s' <> showingLive s ->
      e = PanRelease
      \/ (exists ts, e = Pan ts \/ e = Jump ts \/ e = PanButton ts)
      \/ exists live, e = ToggleLive live)
  /\ (focusedTimestamp s' <> focusedTimestamp s ->
      (forall d, e <> Zoom d) /\ (forall range, e <> SetRange range)
      /\ (forall width, e <> Resize width) /\ e <> Unmount
      /\ e <> ChangeTimerExpired /\ e <> ZoomTimerExpired)
  /\ (timer (fst (step clock e c)) <> timer c -> e = Unmount)
  /\ (changes (snd (step clock e c)) <> [] ->
      e = PanRelease \/ e = ChangeTimerExpired
      \/ exists ts, e = Jump ts \/ e = PanButton ts \/ e = InputEdit ts).
Proof.
  cbv zeta.
  by_handler e c;
    repeat split; intros Hchanged;
    try (exfalso; apply Hchanged; reflexivity);
    try discriminate; eauto 6.
  all: try (destruct (Debounce.lastArgs _); exfalso; apply Hchanged; reflexivity).
  all: congruence.
Qed.

(** ** Lifecycle *)

Lemma step_keeps_timer_off (clock : Z) (e : Event) (c : Component) :
  timer c = false -> timer (fst (step clock e c)) = false.
Proof. intros Hoff. by_handler e c; try exact Hoff; try congruence; reflexivity. Qed.

Lemma run_keeps_timer_off (trace : list (Z * Event)) (c : Component) :
  timer c = false -> timer (fst (run trace c)) = false.
Proof.
  revert c. induction trace as [|[at_ e] rest IH]; intros c Hoff; [exact Hoff|].
  rewrite run_cons. cbn [fst]. apply IH, step_keeps_timer_off, Hoff.
Qed.

(** Unmounting stops the interval for good: whatever happens afterwards, a
    tick changes nothing.  It cancels neither debounced function: the state
    and both pending calls are as before, and a pending timestamp
    notification is still delivered when its timeout runs. *)
Theorem unmount_stops_ticks_not_notifications (clock : Z) (c : Component) :
  let c' := fst (step clock Unmount c) in
  (state c' = state c
   /\ delayedOnChangeTimestamp c' = delayedOnChangeTimestamp c
   /\ delayedReportZoom c' = delayedReportZoom c
   /\ snd (step clock Unmount c) = [])
  /\ (forall (trace : list (Z * Event)) (later : Z),
        step later Tick (fst (run trace c')) = (fst (run trace c'), []))
  /\ (forall (pending : string) (last later : Z),
        delayedOnChangeTimestamp c = Debounce.Make (Some pending) (Some last) true ->
        last + 500 <= later ->
        snd (step later ChangeTimerExpired c') = [onChangeTimestamp pending]).
Proof.
  cbv zeta. split; [repeat split | split].
  - intros trace later. apply step_Tick_stopped, run_keeps_timer_off. reflexivity.
  - intros pending last later Hpending Hlater.
    rewrite step_ChangeTimerExpired. cbv zeta.
    change (delayedOnChangeTimestamp (fst (step clock Unmount c)))
      with (delayedOnChangeTimestamp c).
    rewrite Hpending. unfold Debounce.shouldInvoke.
    cbn [Debounce.timerId Debounce.lastCallTime Debounce.lastArgs andb].
    replace (500 <=? later - last) with true by (symmetry; apply Z.leb_le; lia).
    reflexivity.
Qed.

(** ** Release, range, pushed props *)


(** A range change stores the range and reports it at once through
    [onChangeRange] and through nothing else; besides [rangeMs] it writes
    only the zoom level: focus, live mode, [timestampNow], the width, the
    props, both debounced functions and the interval are as before. *)
Theorem range_change_touches_range_and_zoom_only
    (clock : Z) (range : Q) (c : Component) :
  let s := state c in
  let c' := fst (step clock (SetRange range) c) in
  (rangeMs (state c') = range
   /\ snd (step clock (SetRange range) c) = [onChangeRange range])
  /\ (focusedTimestamp (state c') = focusedTimestamp s
      /\ showingLive (state c') = showingLive s
      /\ timestampNow (state c') = timestampNow s
      /\ timelineWidthPx (state c') = timelineWidthPx s)
  /\ (props c' = props c
      /\ delayedOnChangeTimestamp c' = delayedOnChangeTimestamp c
      /\ delayedReportZoom c' = delayedReportZoom c
      /\ timer c' = timer c).
Proof.
  intros s c'. subst c'. rewrite step_SetRange. cbn [fst snd].
  repeat split.
Qed.



(** ** The telemetry channel *)

Lemma run_zoomExpiries_frame (times : list Z) (c : Component) :
  props (fst (run (zoomExpiries times) c)) = props c
  /\ state (fst (run (zoomExpiries times) c)) = state c.
Proof.
  revert c. induction times as [|t rest IH]; intros c; [split; reflexivity|].
  cbn [zoomExpiries map]. fold (zoomExpiries rest). rewrite run_cons. cbn [fst].
  destruct (IH (fst (step t ZoomTimerExpired c))) as [Hp Hs]. rewrite Hp, Hs.
  rewrite step_ZoomTimerExpired. cbv zeta. destruct (_ && _); split; reflexivity.
Qed.

Lemma run_zoomExpiries_idle (times : list Z) (c : Component) :
  Debounce.timerId (delayedReportZoom c) = false ->
  snd (run (zoomExpiries times) c) = [].
Proof.
  revert c. induction times as [|t rest IH]; intros c Hidle; [reflexivity|].
  cbn [zoomExpiries map]. fold (zoomExpiries rest). rewrite run_cons.
  rewrite step_ZoomTimerExpired. cbv zeta. rewrite Hidle. cbn [andb fst snd app].
  apply IH. exact Hidle.
Qed.

Lemma run_zoomExpiries_pending (times : list Z) (c : Component) (last : Z) :
  delayedReportZoom c = Debounce.Make (Some tt) (Some last) true ->
  Forall (fun t => last <= t) times ->
  snd (run (zoomExpiries times) c) =
    if existsb (fun t => last + 5000 <=? t) times
    then [onTimelineZoom (zoomedPeriodAt (durationMsPerPixel (state c)))]
    else [].
Proof.
  revert c. induction times as [|t rest IH]; intros c Hpending Hafter; [reflexivity|].
  inversion Hafter as [|t' rest' Ht Hrest]; subst.
  cbn [zoomExpiries map existsb]. fold (zoomExpiries rest). rewrite run_cons.
  rewrite step_ZoomTimerExpired. cbv zeta. rewrite Hpending.
  unfold Debounce.shouldInvoke.
  cbn [Debounce.timerId Debounce.lastCallTime Debounce.lastArgs andb].
  replace (t - last <? 0) with false by (symmetry; apply Z.ltb_ge; lia).
  rewrite orb_false_r.
  destruct (Z.leb_spec (last + 5000) t) as [Hdue | Hearly].
  - replace (5000 <=? t - last) with true by (symmetry; apply Z.leb_le; lia).
    cbn [orb fst snd]. rewrite run_zoomExpiries_idle by reflexivity. reflexivity.
  - replace (5000 <=? t - last) with false by (symmetry; apply Z.leb_gt; lia).
    cbn [orb fst snd app].
    exact (IH (with_zoom (Debounce.Make (Some tt) (Some last) true) c) eq_refl Hrest).
Qed.

(** Two zooms less than 5000 ms apart, with nothing but timeouts of the
    debounced report in between and afterwards, give one [onTimelineZoom]
    call, for the second zoom level, once a timeout runs 5000 ms or more
    after the second zoom, and no call before that. *)
Theorem zoom_zoom_reports_last_only
    (c : Component) (clock1 clock2 : Z) (d1 d2 : Q) (early late : list Z) :
  clock1 <= clock2 < clock1 + 5000 ->
  Forall (fun t => clock1 <= t <= clock2) early ->
  Forall (fun t => clock2 <= t) late ->
  let out :=
    snd (run ((clock1, Zoom d1) :: zoomExpiries early
              ++ (clock2, Zoom d2) :: zoomExpiries late) c) in
  (Exists (fun t => clock2 + 5000 <= t) late ->
   out = [onTimelineZoom (zoomedPeriodAt (clampedDuration clock2 (props c) d2))])
  /\ (Forall (fun t => t < clock2 + 5000) late -> out = []).
Proof.
  intros Hwindow Hearly Hlate out.
  assert (Hout : out =
            if existsb (fun t => clock2 + 5000 <=? t) late
            then [onTimelineZoom (zoomedPeriodAt (clampedDuration clock2 (props c) d2))]
            else []).
  { subst out. rewrite run_cons, step_Zoom. cbn [fst snd app].
    set (c1 := with_state _ (with_zoom _ c)).
    rewrite run_app. cbn [snd].
    assert (Hquiet : snd (run (zoomExpiries early) c1) = []).
    { rewrite (run_zoomExpiries_pending early c1 clock1 eq_refl).
      - rewrite no_timeout_due; [reflexivity|].
        eapply Forall_impl; [|exact Hearly]. cbv beta. intros t Ht. lia.
      - eapply Forall_impl; [|exact Hearly]. cbv beta. intros t Ht. lia. }
    rewrite Hquiet. cbn [app].
    destruct (run_zoomExpiries_frame early c1) as [Hprops Hstate].
    set (c2 := fst (run (zoomExpiries early) c1)) in *.
    rewrite run_cons, step_Zoom. cbn [fst snd app]. rewrite Hprops.
    change (props c1) with (props c).
    set (c3 := with_state _ (with_zoom _ c2)).
    exact (run_zoomExpiries_pending late c3 clock2 eq_refl Hlate). }
  split.
  - intros Hdue. rewrite Hout, some_timeout_due; [reflexivity | exact Hdue].
  - intros Hnone. rewrite Hout, no_timeout_due; [reflexivity | exact Hnone].
Qed.

(** When the maximal tick spacing spans a second or more at the zoom level
    [d], [reportZoom] reports a period (never [undefined]), one of the seven
    of its list. *)
Theorem zoom_report_names_a_period (d : Q) :
  (1000 <= d * MAX_TICK_SPACING_PX)%Q ->
  exists period : string,
    zoomedPeriodAt d = Some period
    /\ In period ["years"; "months"; "weeks"; "days"; "hours"; "minutes"; "seconds"]%string.
Proof.
  intros Hsecond. unfold zoomedPeriodAt.
  set (ms := (d * MAX_TICK_SPACING_PX)%Q) in *.
  destruct (find _ _) as [period|] eqn:Hfind.
  - exists period. split; [reflexivity|]. apply find_some in Hfind. exact (proj1 Hfind).
  - exfalso.
    assert (Hnone : forall period,
              In period ["years"; "months"; "weeks"; "days"; "hours"; "minutes"; "seconds"]%string ->
              MomentDuration.get ms period = 0).
    { intros period Hin. pose proof (find_none _ _ Hfind period Hin) as Hzero.
      cbv beta in Hzero. apply negb_false_iff, Z.eqb_eq in Hzero. exact Hzero. }
    assert (Hseconds : 1 <= Qfloor (ms / 1000)).
    { change 1 with (Qfloor 1). apply Qfloor_resp_le.
      apply Qle_shift_div_l; [reflexivity | lra]. }
    pose proof (Hnone "years"%string) as Hy.
    pose proof (Hnone "months"%string) as Hmo.
    pose proof (Hnone "days"%string) as Hd.
    pose proof (Hnone "hours"%string) as Hh.
    pose proof (Hnone "minutes"%string) as Hmi.
    pose proof (Hnone "seconds"%string) as Hs.
    cbn [In] in Hy, Hmo, Hd, Hh, Hmi, Hs.
    specialize (Hy ltac:(tauto)). specialize (Hmo ltac:(tauto)).
    specialize (Hd ltac:(tauto)). specialize (Hh ltac:(tauto)).
    specialize (Hmi ltac:(tauto)). specialize (Hs ltac:(tauto)).
    unfold MomentDuration.get in Hy, Hmo, Hd, Hh, Hmi, Hs.
    cbn [String.eqb Ascii.eqb Bool.eqb] in Hy, Hmo, Hd, Hh, Hmi, Hs.
    set (seconds := Qfloor (ms / 1000)) in *.
    set (months := Qfloor (MomentDuration.daysToMonths (seconds / 60 / 60 / 24))) in *.
    assert (Hmonths : months = 0).
    { pose proof (Z.div_mod months 12 ltac:(discriminate)). lia. }
    rewrite Hmonths in Hd.
    change (Qceiling (MomentDuration.monthsToDays 0)) with 0 in Hd.
    pose proof (Z.div_mod (seconds / 60 / 60) 24 ltac:(discriminate)).
    pose proof (Z.div_mod (seconds / 60) 60 ltac:(discriminate)).
    pose proof (Z.div_mod seconds 60 ltac:(discriminate)).
    lia.
Qed.

End FurtherProperties.

(** * LookupMenu *)

Section LookupMenuProperties.

Variable lowerCase : string -> string.

Import LookupMenu.

Lemma filter_twice {A : Type} (f : A -> bool) (l : list A) :
  filter f (filter f l) = filter f l.
Proof.
  induction l as [|a rest IH]; [reflexivity|].
  cbn [filter]. destruct (f a) eqn:Hfa; [|exact IH].
  cbn [filter]. rewrite Hfa, IH. reflexivity.
Qed.

(** With a non-empty query [filterItems] never returns an empty list: it
    returns the matching items in their order, or the single placeholder
    "No items found" when nothing matches.  Filtering its result again by
    the same query changes nothing. *)
Theorem filterItems_never_empty_and_idempotent (items : list Item) (query : string) :
  let matches := fun i => includes (lowerCase (label i)) (lowerCase query) in
  let noItemsFound := {| value := None; label := "No items found" |} in
  (query <> EmptyString ->
   filterItems lowerCase items query <> []
   /\ (filterItems lowerCase items query = filter matches items
       \/ (filter matches items = []
           /\ filterItems lowerCase items query = [noItemsFound])))
  /\ filterItems lowerCase (filterItems lowerCase items query) query
     = filterItems lowerCase items query.
Proof.
  intros matches noItemsFound. unfold filterItems. fold matches.
  destruct (String.eqb_spec query "") as [Hempty | Hquery].
  - split; [intros Hne; contradiction | reflexivity].
  - destruct (filter matches items) as [|i rest] eqn:Hfilter; cbn [List.length Nat.eqb].
    + split.
      * intros _. split; [discriminate | right; split; reflexivity].
      * cbn [filter]. destruct (matches _); reflexivity.
    + split.
      * intros _. split; [discriminate | left; reflexivity].
      * rewrite <- Hfilter, filter_twice, Hfilter. reflexivity.
Qed.

(** On a non-empty list, moving the soft selection from nothing or from a
    valid index gives a valid index, whatever the step; on an empty list
    nothing gets selected. *)
Theorem moveSoftSelect_stays_in_range
    (softSelectedIndex : option Z) (items : list Item) (amt : Z) :
  let size := Z.of_nat (List.length items) in
  (forall i, softSelectedIndex = Some i -> 0 <= i < size) ->
  (items <> [] ->
   exists next, moveSoftSelect softSelectedIndex items amt = Some next
                /\ 0 <= next < size)
  /\ (items = [] -> moveSoftSelect softSelectedIndex items amt = None).
Proof.
  intros size Hvalid. unfold moveSoftSelect. fold size.
  assert (Hsize : items <> [] -> 0 < size).
  { intros Hne. subst size. destruct items; [contradiction | cbn [List.length]; lia]. }
  split.
  - intros Hne. specialize (Hsize Hne).
    destruct softSelectedIndex as [i|].
    + specialize (Hvalid i eq_refl).
      destruct (Z.gtb_spec (i + amt) (size - 1)); [exists i; split; [reflexivity | lia]|].
      destruct (Z.ltb_spec (i + amt) 0); eexists; split; try reflexivity; lia.
    + destruct (Z.gtb_spec 0 (size - 1)); [lia|].
      exists 0. split; [reflexivity | lia].
  - intros Hempty. subst items. cbn in size. subst size.
    destruct softSelectedIndex as [i|]; [specialize (Hvalid i eq_refl); lia|].
    reflexivity.
Qed.

Lemma arrow_down_step (c : Component) (i : Z) :
  softSelectedIndex (state c) = Some i ->
  0 <= i < Z.of_nat (List.length (items (state c))) ->
  let c' := fst (step lowerCase (KeyDown "ArrowDown") c) in
  softSelectedIndex (state c')
  = Some (Z.min (i + 1) (Z.of_nat (List.length (items (state c))) - 1))
  /\ items (state c') = items (state c).
Proof.
  intros Hi Hrange. cbn. rewrite Hi. unfold moveSoftSelect.
  destruct (Z.gtb_spec (i + 1) (Z.of_nat (List.length (items (state c))) - 1)).
  - split; [f_equal; lia | reflexivity].
  - destruct (Z.ltb_spec (i + 1) 0); [lia|]. split; [f_equal; lia | reflexivity].
Qed.

Lemma arrow_up_step (c : Component) (i : Z) :
  softSelectedIndex (state c) = Some i ->
  0 <= i < Z.of_nat (List.length (items (state c))) ->
  let c' := fst (step lowerCase (KeyDown "ArrowUp") c) in
  softSelectedIndex (state c') = Some (Z.max 0 (i - 1))
  /\ items (state c') = items (state c).
Proof.
  intros Hi Hrange. cbn. rewrite Hi. unfold moveSoftSelect.
  destruct (Z.gtb_spec (i + -1) (Z.of_nat (List.length (items (state c))) - 1)); [lia|].
  destruct (Z.ltb_spec (i + -1) 0); split; try reflexivity; f_equal; lia.
Qed.

Lemma run_step (e : Event) (rest : list Event) (c : Component) :
  run lowerCase (e :: rest) c =
    (fst (run lowerCase rest (fst (step lowerCase e c))),
     snd (step lowerCase e c) ++ snd (run lowerCase rest (fst (step lowerCase e c)))).
Proof.
  cbn [run]. destruct (step lowerCase e c) as [c1 out1]. cbn [fst snd].
  destruct (run lowerCase rest c1) as [c2 out2]. reflexivity.
Qed.

Lemma arrow_downs (n : nat) (c : Component) (i : Z) :
  softSelectedIndex (state c) = Some i ->
  0 <= i < Z.of_nat (List.length (items (state c))) ->
  let c' := fst (run lowerCase (repeat (KeyDown "ArrowDown") n) c) in
  softSelectedIndex (state c')
  = Some (Z.min (i + Z.of_nat n) (Z.of_nat (List.length (items (state c))) - 1))
  /\ items (state c') = items (state c).
Proof.
  revert c i. induction n as [|n IH]; intros c i Hi Hrange.
  - cbn [repeat run fst]. split; [rewrite Hi; f_equal; lia | reflexivity].
  - cbn [repeat]. rewrite run_step. cbn [fst].
    destruct (arrow_down_step c i Hi Hrange) as [Hidx Hitems].
    destruct (IH _ _ Hidx) as [Hidx' Hitems']; [rewrite Hitems; lia|].
    cbv zeta in *. rewrite Hidx', Hitems', Hitems. split; [f_equal; lia | reflexivity].
Qed.

Lemma arrow_ups (n : nat) (c : Component) (i : Z) :
  softSelectedIndex (state c) = Some i ->
  0 <= i < Z.of_nat (List.length (items (state c))) ->
  let c' := fst (run lowerCase (repeat (KeyDown "ArrowUp") n) c) in
  softSelectedIndex (state c') = Some (Z.max 0 (i - Z.of_nat n))
  /\ items (state c') = items (state c).
Proof.
  revert c i. induction n as [|n IH]; intros c i Hi Hrange.
  - cbn [repeat run fst]. split; [rewrite Hi; f_equal; lia | reflexivity].
  - cbn [repeat]. rewrite run_step. cbn [fst].
    destruct (arrow_up_step c i Hi Hrange) as [Hidx Hitems].
    destruct (IH _ _ Hidx) as [Hidx' Hitems']; [rewrite Hitems; lia|].
    cbv zeta in *. rewrite Hidx', Hitems', Hitems. split; [f_equal; lia | reflexivity].
Qed.

Lemma run_append (trace1 trace2 : list Event) (c : Component) :
  fst (run lowerCase (trace1 ++ trace2) c)
  = fst (run lowerCase trace2 (fst (run lowerCase trace1 c))).
Proof.
  revert c. induction trace1 as [|e rest IH]; intros c; [reflexivity|].
  cbn [app]. rewrite !run_step. cbn [fst]. apply IH.
Qed.

(** With nothing soft-selected and a non-empty list shown, pressing
    ArrowDown [downs] times (at least once) and then ArrowUp [ups] times
    soft-selects index [max 0 (min downs size - 1 - ups)]: the selection
    starts at the first item, stops at the last one and does not go above
    the first. *)
Theorem arrow_keys_walk_within_the_list (c : Component) (downs ups : nat) :
  softSelectedIndex (state c) = None ->
  items (state c) <> [] ->
  (1 <= downs)%nat ->
  let size := Z.of_nat (List.length (items (state c))) in
  let c' :=
    fst (run lowerCase
           (repeat (KeyDown "ArrowDown") downs ++ repeat (KeyDown "ArrowUp") ups) c) in
  softSelectedIndex (state c')
  = Some (Z.max 0 (Z.min (Z.of_nat downs) size - 1 - Z.of_nat ups))
  /\ items (state c') = items (state c).
Proof.
  intros Hnone Hne Hdowns size c'.
  assert (Hsize : 0 < size).
  { subst size. destruct (items (state c)); [contradiction | cbn [List.length]; lia]. }
  destruct downs as [|downs]; [lia|].
  subst c'. rewrite run_append. cbn [repeat]. rewrite run_step. cbn [fst].
  set (c1 := fst (step lowerCase (KeyDown "ArrowDown") c)).
  assert (Hfirst : softSelectedIndex (state c1) = Some 0
                   /\ items (state c1) = items (state c)).
  { subst c1. cbn. rewrite Hnone. unfold moveSoftSelect. fold size.
    destruct (Z.gtb_spec 0 (size - 1)); [lia|]. split; reflexivity. }
  destruct Hfirst as [Hidx1 Hitems1].
  destruct (arrow_downs downs c1 0 Hidx1) as [Hidx2 Hitems2];
    [rewrite Hitems1; fold size; lia|].
  cbv zeta in Hidx2, Hitems2. rewrite Hitems1 in Hidx2. fold size in Hidx2.
  set (c2 := fst (run lowerCase (repeat (KeyDown "ArrowDown") downs) c1)) in *.
  destruct (arrow_ups ups c2 _ Hidx2) as [Hidx3 Hitems3];
    [rewrite Hitems2, Hitems1; fold size; lia|].
  cbv zeta in Hidx3, Hitems3. rewrite Hidx3, Hitems3, Hitems2, Hitems1.
  split; [f_equal; lia | reflexivity].
Qed.

Lemma step_keeps_items_filtered (e : Event) (c : Component) :
  items (state c) = filterItems lowerCase (itemsProp (props c)) (query (state c)) ->
  let c' := fst (step lowerCase e c) in
  items (state c') = filterItems lowerCase (itemsProp (props c')) (query (state c')).
Proof.
  intros Hinv.
  assert (Hfilter : forall itemsArg q,
            (if truthy (Some q) then filterItems lowerCase itemsArg q else itemsArg)
            = filterItems lowerCase itemsArg q).
  { intros itemsArg q. cbn [truthy]. unfold filterItems.
    destruct (String.eqb q ""); reflexivity. }
  destruct e as [nextProps | v | key | item]; cbn.
  - apply Hfilter.
  - apply Hfilter.
  - unfold handleKeyboardNavigation.
    repeat match goal with
      | |- context [if ?b then _ else _] => destruct b
      end; exact Hinv.
  - exact Hinv.
Qed.

(** Once mounted, the menu always shows the items of its current props
    filtered by the query typed last, whatever props, searches, keys and
    clicks came in between. *)
Theorem shown_items_follow_props_and_query (p : Props) (trace : list Event) :
  let c := fst (run lowerCase trace (mount lowerCase p)) in
  items (state c) = filterItems lowerCase (itemsProp (props c)) (query (state c)).
Proof.
  assert (Hinit : items (state (mount lowerCase p))
                  = filterItems lowerCase (itemsProp (props (mount lowerCase p)))
                      (query (state (mount lowerCase p)))) by reflexivity.
  revert Hinit. generalize (mount lowerCase p) as c.
  induction trace as [|e rest IH]; intros c Hc; [exact Hc|].
  rewrite run_step. cbn [fst]. apply IH. apply step_keeps_items_filtered. exact Hc.
Qed.

(** The Enter key calls [onChange] (when it was passed) with the value of
    the soft-selected item; it raises a [TypeError] instead when nothing is
    soft-selected or the index is outside the list shown, as it is right
    after mounting.  The Escape key always raises a [TypeError].  Neither
    changes the state. *)
Theorem enter_needs_a_soft_selected_item (c : Component) :
  (forall (i : Z) (item : Item),
     softSelectedIndex (state c) = Some i -> 0 <= i ->
     nth_error (items (state c)) (Z.to_nat i) = Some item ->
     step lowerCase (KeyDown "Enter") c
     = (c, preventDefault :: (if hasOnChange (props c) then [onChange (value item)] else [])))
  /\ ((softSelectedIndex (state c) = None
       \/ exists i, softSelectedIndex (state c) = Some i
                    /\ (i < 0 \/ Z.of_nat (List.length (items (state c))) <= i)) ->
      step lowerCase (KeyDown "Enter") c = (c, [preventDefault; TypeError]))
  /\ (forall p : Props,
        step lowerCase (KeyDown "Enter") (mount lowerCase p)
        = (mount lowerCase p, [preventDefault; TypeError]))
  /\ step lowerCase (KeyDown "Escape") c = (c, [TypeError]).
Proof.
  split; [|split; [|split]].
  - intros i item Hi Hpos Hnth. cbn. unfold softSelectedItem. rewrite Hi.
    destruct (Z.ltb_spec i 0); [lia|]. rewrite Hnth. reflexivity.
  - intros [Hnone | (i & Hi & Hout)]; cbn; unfold softSelectedItem.
    + rewrite Hnone. reflexivity.
    + rewrite Hi. destruct (Z.ltb_spec i 0); [reflexivity|].
      destruct Hout as [Hneg | Hbig]; [lia|].
      replace (nth_error (items (state c)) (Z.to_nat i)) with (@None Item);
        [reflexivity|].
      symmetry. apply nth_error_None. lia.
  - intros p. reflexivity.
  - reflexivity.
Qed.

End LookupMenuProperties.

(** * Legend *)

Section LegendProperties.

Import Legend.

Lemma insert_In (key k : string) (keys : list string) :
  In k (insert key keys) <-> k = key \/ In k keys.
Proof.
  induction keys as [|h rest IH]; cbn [insert In].
  - intuition congruence.
  - destruct (String.leb key h); cbn [In]; rewrite ?IH; intuition congruence.
Qed.

Lemma sort_In (k : string) (keys : list string) : In k (sort keys) <-> In k keys.
Proof.
  induction keys as [|h rest IH]; [reflexivity|].
  cbn [sort fold_right]. fold (sort rest). rewrite insert_In, IH. cbn [In].
  intuition congruence.
Qed.

Lemma without_In (k key : string) (keys : list string) :
  In k (without keys key) <-> In k keys /\ k <> key.
Proof.
  unfold without. rewrite filter_In, negb_true_iff, String.eqb_neq. reflexivity.
Qed.

Lemma seriesSelected_In (s : State) (key : string) :
  seriesSelected s key = true <-> In key (selectedKeys s).
Proof.
  unfold seriesSelected. rewrite existsb_exists. split.
  - intros (k & Hin & Heq). apply String.eqb_eq in Heq. subst k. exact Hin.
  - intros Hin. exists key. split; [exact Hin | apply String.eqb_refl].
Qed.

(** A click with Ctrl or Meta held toggles the clicked series and nothing
    else: the series is selected afterwards exactly when it was not
    before, and every other series is selected exactly when it was. *)
Theorem ctrl_click_toggles_the_clicked_series
    (ctrlKey metaKey : bool) (key : string) (s : State) :
  ctrlKey || metaKey = true ->
  let s' := fst (handleLegendItemClick ctrlKey metaKey key s) in
  (In key (selectedKeys s') <-> ~ In key (selectedKeys s))
  /\ (forall k, k <> key -> (In k (selectedKeys s') <-> In k (selectedKeys s))).
Proof.
  intros Hctrl. unfold handleLegendItemClick. rewrite Hctrl. cbn [fst selectedKeys].
  destruct (seriesSelected s key) eqn:Hsel.
  - apply seriesSelected_In in Hsel. split.
    + rewrite without_In. intuition.
    + intros k Hk. rewrite without_In. intuition.
  - assert (Hout : ~ In key (selectedKeys s)).
    { intros Hin. apply seriesSelected_In in Hin. congruence. }
    split.
    + rewrite sort_In. cbn [In]. intuition.
    + intros k Hk. rewrite sort_In. cbn [In]. intuition congruence.
Qed.

Lemma insert_Sorted (key : string) (keys : list string) :
  Sorted ts_le keys -> Sorted ts_le (insert key keys).
Proof.
  induction 1 as [|h rest Hrest IH Hhd]; cbn [insert].
  - repeat constructor.
  - destruct (String.leb key h) eqn:Hle.
    + repeat constructor; assumption.
    + constructor; [exact IH|].
      assert (Hhk : ts_le h key).
      { destruct (String.leb_total h key) as [H|H]; [exact H | unfold ts_le; congruence]. }
      destruct rest as [|h' rest']; cbn [insert].
      * constructor. exact Hhk.
      * destruct (String.leb key h'); constructor; [exact Hhk|].
        inversion Hhd; assumption.
Qed.

Lemma sort_Sorted (keys : list string) : Sorted ts_le (sort keys).
Proof.
  induction keys as [|h rest IH]; [constructor|].
  cbn [sort fold_right]. apply insert_Sorted. exact IH.
Qed.

Lemma insert_Permutation (key : string) (keys : list string) :
  Permutation (insert key keys) (key :: keys).
Proof.
  induction keys as [|h rest IH]; cbn [insert]; [reflexivity|].
  destruct (String.leb key h); [reflexivity|].
  rewrite IH. apply perm_swap.
Qed.

Lemma sort_Permutation (keys : list string) : Permutation (sort keys) keys.
Proof.
  induction keys as [|h rest IH]; [reflexivity|].
  cbn [sort fold_right]. fold (sort rest).
  rewrite insert_Permutation, IH. reflexivity.
Qed.

Lemma filter_Sorted (f : string -> bool) (keys : list string) :
  StronglySorted ts_le keys -> StronglySorted ts_le (filter f keys).
Proof.
  induction 1 as [|h rest Hrest IH Hall]; cbn [filter]; [constructor|].
  destruct (f h); [|exact IH].
  constructor; [exact IH|].
  apply Forall_forall. intros k Hk. apply filter_In in Hk.
  rewrite Forall_forall in Hall. apply Hall. exact (proj1 Hk).
Qed.

Lemma ts_le_trans : Relations_1.Transitive ts_le.
Proof.
  intros a b c. unfold ts_le, String.leb.
  destruct (String.compare a b) eqn:Hab; try discriminate;
    destruct (String.compare b c) eqn:Hbc; try discriminate; intros _ _.
  - apply String.compare_eq_iff in Hab. subst b. rewrite Hbc. reflexivity.
  - apply String.compare_eq_iff in Hab. subst b. rewrite Hbc. reflexivity.
  - apply String.compare_eq_iff in Hbc. subst c. rewrite Hab. reflexivity.
  - assert (Hac : String.compare a c = Lt).
    { apply (proj2 (OrderedTypeEx.String_as_OT.cmp_lt a c)).
      apply (OrderedTypeEx.String_as_OT.lt_trans a b c).
      - apply (proj1 (OrderedTypeEx.String_as_OT.cmp_lt a b)). exact Hab.
      - apply (proj1 (OrderedTypeEx.String_as_OT.cmp_lt b c)). exact Hbc. }
    rewrite Hac. reflexivity.
Qed.

(** Whatever the click, a selection that was sorted and free of duplicates
    stays so, and [onSelectedKeysChange] is called once, with the selection
    the state now holds. *)
Theorem clicks_keep_selection_sorted_and_duplicate_free
    (ctrlKey metaKey : bool) (key : string) (s : State) :
  Sorted ts_le (selectedKeys s) ->
  NoDup (selectedKeys s) ->
  let s' := fst (handleLegendItemClick ctrlKey metaKey key s) in
  Sorted ts_le (selectedKeys s')
  /\ NoDup (selectedKeys s')
  /\ snd (handleLegendItemClick ctrlKey metaKey key s)
     = [onSelectedKeysChange (selectedKeys s')]
  /\ shown s' = shown s /\ hoveredKey s' = hoveredKey s.
Proof.
  intros Hsorted Hnodup. unfold handleLegendItemClick. cbn [fst snd selectedKeys shown hoveredKey].
  split; [|split; [|repeat split]].
  - destruct (ctrlKey || metaKey).
    + destruct (seriesSelected s key).
      * apply StronglySorted_Sorted, filter_Sorted.
        apply Sorted_StronglySorted; [exact ts_le_trans | exact Hsorted].
      * apply sort_Sorted.
    + destruct (_ && _); repeat constructor.
  - destruct (ctrlKey || metaKey).
    + destruct (seriesSelected s key) eqn:Hsel.
      * apply NoDup_filter. exact Hnodup.
      * apply (Permutation_NoDup (l := key :: selectedKeys s)).
        -- symmetry. apply sort_Permutation.
        -- constructor; [|exact Hnodup].
           intros Hin. apply seriesSelected_In in Hin. congruence.
    + destruct (_ && _); repeat constructor. intros [].
Qed.

(** A click without Ctrl or Meta selects the clicked series alone, unless
    it was the only selected one, in which case nothing is selected; so a
    second such click on the same series undoes the first exactly when the
    first made a selection. *)
Theorem plain_click_selects_alone_or_clears (key : string) (s : State) :
  let s1 := fst (handleLegendItemClick false false key s) in
  let s2 := fst (handleLegendItemClick false false key s1) in
  (selectedKeys s = [key] -> selectedKeys s1 = [] /\ selectedKeys s2 = [key])
  /\ (selectedKeys s <> [key] -> selectedKeys s1 = [key] /\ selectedKeys s2 = []).
Proof.
  cbv zeta. unfold handleLegendItemClick, seriesSelected.
  cbn [orb fst selectedKeys]. split.
  - intros Honly. rewrite Honly. cbn [existsb List.length Nat.eqb].
    rewrite String.eqb_refl. cbn. split; reflexivity.
  - intros Hother.
    assert (Hfirst : existsb (String.eqb key) (selectedKeys s)
                     && Nat.eqb (List.length (selectedKeys s)) 1 = false).
    { destruct (selectedKeys s) as [|k [|k' rest]] eqn:Hkeys; cbn; try reflexivity.
      - rewrite orb_false_r, andb_true_r. apply String.eqb_neq. congruence.
      - apply andb_false_r. }
    rewrite Hfirst. cbn [existsb List.length Nat.eqb selectedKeys].
    rewrite String.eqb_refl. cbn. split; reflexivity.
Qed.

End LegendProperties.

(** * TimestampTag *)

Section TimestampTagProperties.

Import TimestampTag.

Lemma clearInterval_fresh (id : positive) (T : Timers) :
  Forall (fun i => (fst i < id)%positive) (intervals T) ->
  intervals (clearInterval id T) = intervals T.
Proof.
  intros Hold. cbn [clearInterval intervals].
  induction Hold as [|i rest Hi _ IH]; [reflexivity|].
  cbn [filter]. replace (Pos.eqb (fst i) id) with false; [cbn; f_equal; exact IH|].
  symmetry. apply Pos.eqb_neq. lia.
Qed.

Lemma stop_releases (T : Timers) (q : Props) (w : World) :
  wellFormed T -> ownsAtMostOne T q w ->
  fst (stopAutoRefresh w) = None
  /\ intervals (snd (stopAutoRefresh w)) = intervals T
  /\ nextId (snd (stopAutoRefresh w)) = nextId (snd w).
Proof.
  intros Hwf [Hnext Hown]. unfold stopAutoRefresh.
  destruct w as [[id|] T']; cbn [fst snd] in *.
  - destruct Hown as (_ & Hid & Hlive). split; [reflexivity | split; [|reflexivity]].
    cbn [clearInterval intervals]. rewrite Hlive. cbn [filter fst].
    rewrite Pos.eqb_refl. cbn [negb].
    apply (clearInterval_fresh id T).
    eapply Forall_impl; [|exact Hwf]. cbv beta. intros i Hi. lia.
  - destruct Hown as (_ & Hlive). repeat split. exact Hlive.
Qed.

Lemma start_owns_one (T : Timers) (q next : Props) (w : World) :
  wellFormed T -> ownsAtMostOne T q w -> relative next = true ->
  ownsAtMostOne T next (startAutoRefresh next w).
Proof.
  intros Hwf Hown Hrel.
  destruct (stop_releases T q w Hwf Hown) as (_ & Hlive & Hnext).
  destruct Hown as [Hle _].
  unfold startAutoRefresh, setInterval, ownsAtMostOne. cbn [fst snd intervals nextId].
  rewrite Hlive, Hnext. repeat split; try assumption; lia.
Qed.

Lemma push_keeps_at_most_one (T : Timers) (q next : Props) (w : World) :
  wellFormed T -> ownsAtMostOne T q w ->
  ownsAtMostOne T next (componentWillReceiveProps next w).
Proof.
  intros Hwf Hown. unfold componentWillReceiveProps.
  destruct (relative next) eqn:Hrel; [exact (start_owns_one T q next w Hwf Hown Hrel)|].
  destruct (stop_releases T q w Hwf Hown) as (Htimer & Hlive & Hnext).
  destruct Hown as [Hle _]. unfold ownsAtMostOne. rewrite Htimer, Hnext.
  repeat split; assumption.
Qed.

Lemma last_cons_default (q a : Props) (l : list Props) : last (a :: l) q = last l a.
Proof.
  revert q a. induction l as [|b rest IH]; intros q a; [reflexivity|].
  change (last (a :: b :: rest) q) with (last (b :: rest) q).
  rewrite (IH q b). symmetry. apply (IH a b).
Qed.

Lemma pushes_keep_at_most_one (T : Timers) (pushes : list Props) (q : Props) (w : World) :
  wellFormed T -> ownsAtMostOne T q w ->
  ownsAtMostOne T (last pushes q)
    (fold_left (fun w nextProps => componentWillReceiveProps nextProps w) pushes w).
Proof.
  intros Hwf. revert q w. induction pushes as [|next rest IH]; intros q w Hown; [exact Hown|].
  cbn [fold_left]. rewrite last_cons_default. apply IH.
  exact (push_keeps_at_most_one T q next w Hwf Hown).
Qed.

(** The tag never leaks an interval.  Mounted on a page whose intervals
    are [T] and pushed any sequence of props, it holds exactly one interval
    of its own, with the period of its latest props, when these ask for a
    relative timestamp, and none otherwise; the page's intervals are
    untouched, and unmounting leaves the page with exactly [T]. *)
Theorem auto_refresh_never_leaks_an_interval
    (p : Props) (pushes : list Props) (T : Timers) :
  wellFormed T ->
  let w := lifetime p pushes T in
  let latest := last pushes p in
  (relative latest = true ->
   exists id, fst w = Some id
              /\ intervals (snd w) = (id, intervalMs latest) :: intervals T)
  /\ (relative latest = false -> fst w = None /\ intervals (snd w) = intervals T)
  /\ (fst (componentWillUnmount w) = None
      /\ intervals (snd (componentWillUnmount w)) = intervals T).
Proof.
  intros Hwf w latest.
  assert (Hmounted : ownsAtMostOne T p (componentDidMount p (None, T))).
  { unfold componentDidMount. destruct (relative p) eqn:Hrel.
    - apply (start_owns_one T {| relative := false; intervalMs := 0 |}); try assumption.
      split; [cbn; lia | split; reflexivity].
    - split; [cbn; lia | split; [exact Hrel | reflexivity]]. }
  pose proof (pushes_keep_at_most_one T pushes p _ Hwf Hmounted) as Hown.
  fold (lifetime p pushes T) in Hown. fold w latest in Hown.
  destruct (stop_releases T latest w Hwf Hown) as (Hstopped & Hlive & _).
  destruct Hown as [_ Hown].
  split; [|split; [|split; assumption]].
  - intros Hrel. destruct (fst w) as [id|].
    + exists id. split; [reflexivity | exact (proj2 (proj2 Hown))].
    + destruct Hown as [Hno _]. congruence.
  - intros Hrel. destruct (fst w) as [id|].
    + destruct Hown as [Hyes _]. congruence.
    + split; [reflexivity | exact (proj2 Hown)].
Qed.

End TimestampTagProperties.

(** * Further scenarios *)

(** ** TimeTravel *)

(** One second per pixel is between the bounds of the ten-day session. *)
Lemma clampedDuration_within_zoom_bounds_witness :
  validDates jan11 (earliestTimestamp (scenarioProps true false))
  /\ (minDurationMsPerTimelinePx <= 1000
      <= maxDurationMsPerTimelinePx jan11 (earliestTimestamp (scenarioProps true false)))%Q
  /\ clampedDuration jan11 (scenarioProps true false) 1000 = 1000%Q.
Proof.
  assert (Hvalid : validDates jan11 (earliestTimestamp (scenarioProps true false))).
  { split; reflexivity. }
  assert (Hrange : (minDurationMsPerTimelinePx <= 1000
                    <= maxDurationMsPerTimelinePx jan11
                         (earliestTimestamp (scenarioProps true false)))%Q).
  { split; vm_compute; discriminate. }
  split; [exact Hvalid | split; [exact Hrange|]].
  exact (proj1 (proj2 (proj2
           (clampedDuration_within_zoom_bounds jan11 (scenarioProps true false) 1000
              Hvalid)))
         Hrange).
Defined.

(** The ten-day session starts at one minute per pixel. *)
Lemma initialDuration_is_a_valid_zoom_witness :
  validDates jan11 (Some "2020-01-01T00:00:00Z"%string)
  /\ (500 <= initialDurationMsPerTimelinePx jan11 (Some "2020-01-01T00:00:00Z"%string)
      <= 60000)%Q.
Proof.
  assert (Hvalid : validDates jan11 (Some "2020-01-01T00:00:00Z"%string)).
  { split; reflexivity. }
  split; [exact Hvalid|].
  exact (proj1 (initialDuration_is_a_valid_zoom jan11 _ Hvalid)).
Defined.

(** Zooming in as far as possible, then an hour on a timeline resized to
    900 pixels. *)
Lemma zoom_level_always_within_absolute_bounds_witness :
  validDates jan11 (earliestTimestamp (scenarioProps true false))
  /\ (500 <= durationMsPerPixel
               (state (fst (run [((jan11 + 100)%Z, Zoom 1); ((jan11 + 200)%Z, Resize 900);
                                 ((jan11 + 300)%Z, SetRange 3600000)]
                              (scenario true false))))
      <= 3 * 86400000)%Q.
Proof.
  assert (Hvalid : validDates jan11 (earliestTimestamp (scenarioProps true false))).
  { split; reflexivity. }
  split; [exact Hvalid|].
  apply (zoom_level_always_within_absolute_bounds jan11 (scenarioProps true false)
           [(jan11 + 100, Zoom 1); (jan11 + 200, Resize 900); (jan11 + 300, SetRange 3600000)]
           Hvalid).
  repeat constructor; cbn [snd]; intros range Hrange; try discriminate Hrange.
  injection Hrange as <-. intros Hzero. vm_compute in Hzero. discriminate Hzero.
Defined.

(** A jump past now ends on now. *)
Lemma gestures_leave_focus_in_range_witness :
  (timestampNow (state (scenario true false)) <> EmptyString
   /\ fromEarliest (props (scenario true false)) (timestampNow (state (scenario true false))))
  /\ ts_le "2020-01-01T00:00:00Z"
       (focusedTimestamp (state (fst (step (jan11 + 100) (Jump pastNow) (scenario true false)))))
  /\ ts_le (focusedTimestamp (state (fst (step (jan11 + 100) (Jump pastNow) (scenario true false)))))
       "2020-01-11T00:00:00Z".
Proof.
  assert (Hnow : timestampNow (state (scenario true false)) <> EmptyString)
    by (vm_compute; discriminate).
  assert (Hspan : fromEarliest (props (scenario true false))
                    (timestampNow (state (scenario true false))))
    by (vm_compute; reflexivity).
  split; [split; assumption|].
  exact (gestures_leave_focus_in_range (jan11 + 100) pastNow (Jump pastNow)
           (scenario true false) Hnow Hspan (or_intror (or_introl eq_refl))).
Defined.

(** The input is set to 6 January twice, 200 ms apart. *)
Lemma input_edit_notifies_once_witness :
  formattedTimestamp (jan11 + 300) (Some jan06) = formattedTimestamp (jan11 + 100) (Some jan06)
  /\ snd (step (jan11 + 100) (InputEdit jan06) (scenario true false))
     = [onChangeTimestamp jan06; onTimestampInputEdit]
  /\ snd (step (jan11 + 300) (InputEdit jan06)
            (fst (step (jan11 + 100) (InputEdit jan06) (scenario true false))))
     = [onTimestampInputEdit].
Proof.
  assert (Hfmt : formattedTimestamp (jan11 + 300) (Some jan06)
                 = formattedTimestamp (jan11 + 100) (Some jan06)) by reflexivity.
  destruct (input_edit_notifies_once (jan11 + 100) (jan11 + 300) jan06
              (scenario true false) Hfmt) as (_ & _ & Hagain).
  split; [exact Hfmt | split; [reflexivity|]].
  rewrite Hagain. reflexivity.
Defined.

(** A tick one second after mounting changes [timestampNow]. *)
Lemma state_fields_have_few_writers_witness :
  timestampNow (state (fst (step (jan11 + 1000) Tick (scenario true true))))
  <> timestampNow (state (scenario true true))
  /\ Tick = Tick.
Proof.
  assert (Hchanged : timestampNow (state (fst (step (jan11 + 1000) Tick (scenario true true))))
                     <> timestampNow (state (scenario true true)))
    by (vm_compute; discriminate).
  split; [exact Hchanged|].
  exact (proj1 (state_fields_have_few_writers (jan11 + 1000) Tick (scenario true true))
           Hchanged).
Defined.

(** Unmounting 100 ms after a pan: ticks stop, the notification of the pan
    still arrives. *)
Lemma unmount_stops_ticks_not_notifications_witness :
  (delayedOnChangeTimestamp afterPan = Debounce.Make (Some jan06) (Some (jan11 + 100)) true
   /\ jan11 + 100 + 500 <= jan11 + 700)
  /\ timestampNow
       (state (fst (step (jan11 + 1000) Tick (fst (step (jan11 + 200) Unmount afterPan)))))
     = "2020-01-11T00:00:00Z"%string
  /\ snd (step (jan11 + 700) ChangeTimerExpired (fst (step (jan11 + 200) Unmount afterPan)))
     = [onChangeTimestamp jan06].
Proof.
  assert (Hpending : delayedOnChangeTimestamp afterPan
                     = Debounce.Make (Some jan06) (Some (jan11 + 100)) true) by reflexivity.
  assert (Hdue : jan11 + 100 + 500 <= jan11 + 700) by (vm_compute; discriminate).
  destruct (unmount_stops_ticks_not_notifications (jan11 + 200) afterPan)
    as (_ & Hticks & Hfires).
  split; [split; assumption | split].
  - pose proof (Hticks [] (jan11 + 1000)) as Hstill. cbn [run fst] in Hstill.
    rewrite Hstill. reflexivity.
  - exact (Hfires jan06 (jan11 + 100) (jan11 + 700) Hpending Hdue).
Defined.


(** One hour, on a timeline resized to 900 pixels. *)
Lemma range_change_touches_range_and_zoom_only_witness :
  snd (step (jan11 + 200) (SetRange 3600000)
         (fst (step (jan11 + 100) (Resize 900) (scenario true false))))
  = [onChangeRange 3600000]
  /\ focusedTimestamp
       (state (fst (step (jan11 + 200) (SetRange 3600000)
                      (fst (step (jan11 + 100) (Resize 900) (scenario true false))))))
     = "2020-01-05T00:00:00Z"%string.
Proof.
  destruct (range_change_touches_range_and_zoom_only (jan11 + 200) 3600000
              (fst (step (jan11 + 100) (Resize 900) (scenario true false))))
    as ((_ & Hout) & (Hfocus & _) & _).
  split; [exact Hout | rewrite Hfocus; reflexivity].
Defined.


(** Two zooms 1.9 s apart, the timeout 5 s after the second one. *)
Lemma zoom_zoom_reports_last_only_witness :
  jan11 + 100 <= jan11 + 2000 < jan11 + 100 + 5000
  /\ snd (run ((jan11 + 100, Zoom 1000) :: zoomExpiries [jan11 + 1000]
               ++ (jan11 + 2000, Zoom 100000) :: zoomExpiries [jan11 + 5100; jan11 + 7000])
            (scenario true false))
     = [onTimelineZoom (Some "hours"%string)].
Proof.
  assert (Hwindow : jan11 + 100 <= jan11 + 2000 < jan11 + 100 + 5000).
  { split; vm_compute; [discriminate | reflexivity]. }
  split; [exact Hwindow|].
  destruct (zoom_zoom_reports_last_only (scenario true false) _ _ 1000 100000
              [jan11 + 1000] [jan11 + 5100; jan11 + 7000] Hwindow) as [Hone _].
  - repeat constructor; vm_compute; discriminate.
  - repeat constructor; vm_compute; discriminate.
  - rewrite Hone; [vm_compute; reflexivity|].
    apply Exists_cons_tl, Exists_cons_hd. vm_compute. discriminate.
Defined.

(** At the finest zoom, 500 ms per pixel, the report is in minutes. *)
Lemma zoom_report_names_a_period_witness :
  (1000 <= 500 * MAX_TICK_SPACING_PX)%Q
  /\ zoomedPeriodAt 500 = Some "minutes"%string.
Proof.
  assert (Hsecond : (1000 <= 500 * MAX_TICK_SPACING_PX)%Q) by (vm_compute; discriminate).
  split; [exact Hsecond|].
  destruct (zoom_report_names_a_period 500 Hsecond) as (period & Hperiod & _).
  rewrite Hperiod. vm_compute in Hperiod. symmetry. exact Hperiod.
Defined.

(** ** LookupMenu *)

(** The items of the tests, searched for "second" and for "fourth". *)
Lemma filterItems_never_empty_and_idempotent_witness :
  "second"%string <> EmptyString
  /\ LookupMenu.filterItems LookupMenu.asciiLower LookupMenu.testItems "second"
     = [{| LookupMenu.value := Some "second-thing"%string;
           LookupMenu.label := "Second Thing" |}]
  /\ LookupMenu.filterItems LookupMenu.asciiLower LookupMenu.testItems "fourth"
     = [{| LookupMenu.value := None; LookupMenu.label := "No items found" |}].
Proof.
  assert (Hquery : "second"%string <> EmptyString) by discriminate.
  split; [exact Hquery|].
  destruct (proj1 (filterItems_never_empty_and_idempotent LookupMenu.asciiLower
                     LookupMenu.testItems "second") Hquery) as [_ [Hmatch | [Hnone _]]].
  - split; [rewrite Hmatch; reflexivity | reflexivity].
  - vm_compute in Hnone. discriminate Hnone.
Defined.

(** From the last of three items, one step down stays on it. *)
Lemma moveSoftSelect_stays_in_range_witness :
  LookupMenu.testItems <> []
  /\ exists next,
       LookupMenu.moveSoftSelect (Some 2) LookupMenu.testItems 1 = Some next
       /\ 0 <= next < 3.
Proof.
  assert (Hne : LookupMenu.testItems <> []) by discriminate.
  split; [exact Hne|].
  apply (proj1 (moveSoftSelect_stays_in_range (Some 2) LookupMenu.testItems 1
                  ltac:(intros i Hi; injection Hi as <-; cbn; lia))).
  exact Hne.
Defined.

(** Four key downs on three items stay on the last one; two key ups from
    there lead back to the first. *)
Lemma arrow_keys_walk_within_the_list_witness :
  LookupMenu.softSelectedIndex
    (LookupMenu.state
       (fst (LookupMenu.run LookupMenu.asciiLower
               (repeat (LookupMenu.KeyDown "ArrowDown") 4
                ++ repeat (LookupMenu.KeyDown "ArrowUp") 0)
               LookupMenu.testMenu)))
  = Some 2
  /\ LookupMenu.softSelectedIndex
       (LookupMenu.state
          (fst (LookupMenu.run LookupMenu.asciiLower
                  (repeat (LookupMenu.KeyDown "ArrowDown") 4
                   ++ repeat (LookupMenu.KeyDown "ArrowUp") 2)
                  LookupMenu.testMenu)))
     = Some 0.
Proof.
  split.
  - rewrite (proj1 (arrow_keys_walk_within_the_list LookupMenu.asciiLower
                      LookupMenu.testMenu
                      4 0 eq_refl ltac:(discriminate) ltac:(lia))).
    reflexivity.
  - rewrite (proj1 (arrow_keys_walk_within_the_list LookupMenu.asciiLower
                      LookupMenu.testMenu
                      4 2 eq_refl ltac:(discriminate) ltac:(lia))).
    reflexivity.
Defined.

(** Enter after two key downs picks the second item. *)
Lemma enter_needs_a_soft_selected_item_witness :
  snd (LookupMenu.step LookupMenu.asciiLower (LookupMenu.KeyDown "Enter")
         (fst (LookupMenu.run LookupMenu.asciiLower
                 [LookupMenu.KeyDown "ArrowDown"; LookupMenu.KeyDown "ArrowDown"]
                 LookupMenu.testMenu)))
  = [LookupMenu.preventDefault; LookupMenu.onChange (Some "second-thing"%string)].
Proof.
  rewrite (proj1 (enter_needs_a_soft_selected_item LookupMenu.asciiLower
                    (fst (LookupMenu.run LookupMenu.asciiLower
                            [LookupMenu.KeyDown "ArrowDown"; LookupMenu.KeyDown "ArrowDown"]
                            LookupMenu.testMenu))) 1
             {| LookupMenu.value := Some "second-thing"%string;
                LookupMenu.label := "Second Thing" |}
             eq_refl ltac:(lia) eq_refl).
  reflexivity.
Defined.

(** ** Legend *)

(** Ctrl-click on "b" while "a" and "c" are selected. *)
Lemma ctrl_click_toggles_the_clicked_series_witness :
  true || false = true
  /\ In "b"%string
       (Legend.selectedKeys
          (fst (Legend.handleLegendItemClick true false "b"
                  (Legend.constructor true ["a"; "c"]%string)))).
Proof.
  assert (Hctrl : true || false = true) by reflexivity.
  split; [exact Hctrl|].
  apply (proj1 (ctrl_click_toggles_the_clicked_series true false "b"
                  (Legend.constructor true ["a"; "c"]%string) Hctrl)).
  cbn. intros [H | [H | []]]; discriminate H.
Defined.

Lemma clicks_keep_selection_sorted_and_duplicate_free_witness :
  (Sorted ts_le ["a"; "c"]%string /\ NoDup ["a"; "c"]%string)
  /\ Legend.selectedKeys
       (fst (Legend.handleLegendItemClick true false "b"
               (Legend.constructor true ["a"; "c"]%string)))
     = ["a"; "b"; "c"]%string
  /\ Sorted ts_le
       (Legend.selectedKeys
          (fst (Legend.handleLegendItemClick true false "b"
                  (Legend.constructor true ["a"; "c"]%string)))).
Proof.
  assert (Hsorted : Sorted ts_le ["a"; "c"]%string) by (repeat constructor).
  assert (Hnodup : NoDup ["a"; "c"]%string).
  { repeat constructor; cbn; intuition discriminate. }
  split; [split; assumption | split; [reflexivity|]].
  exact (proj1 (clicks_keep_selection_sorted_and_duplicate_free true false "b"
                  (Legend.constructor true ["a"; "c"]%string) Hsorted Hnodup)).
Defined.

(** Two plain clicks on "a", from "a" and "c" selected. *)
Lemma plain_click_selects_alone_or_clears_witness :
  ["a"; "c"]%string <> ["a"]%string
  /\ Legend.selectedKeys
       (fst (Legend.handleLegendItemClick false false "a"
               (Legend.constructor true ["a"; "c"]%string))) = ["a"]%string
  /\ Legend.selectedKeys
       (fst (Legend.handleLegendItemClick false false "a"
               (fst (Legend.handleLegendItemClick false false "a"
                       (Legend.constructor true ["a"; "c"]%string))))) = [].
Proof.
  assert (Hother : ["a"; "c"]%string <> ["a"]%string) by discriminate.
  split; [exact Hother|].
  exact (proj2 (plain_click_selects_alone_or_clears "a"
                  (Legend.constructor true ["a"; "c"]%string)) Hother).
Defined.

(** ** TimestampTag *)

(** A page with one interval of its own; the tag is mounted relative, then
    pushed a new period, absolute, and relative again. *)
Lemma auto_refresh_never_leaks_an_interval_witness :
  TimestampTag.wellFormed
    {| TimestampTag.intervals := [(1%positive, 1000%Q)]; TimestampTag.nextId := 2 |}
  /\ TimestampTag.intervals
       (snd (TimestampTag.lifetime
               {| TimestampTag.relative := true; TimestampTag.intervalMs := 15000 |}
               [{| TimestampTag.relative := true; TimestampTag.intervalMs := 5000 |};
                {| TimestampTag.relative := false; TimestampTag.intervalMs := 5000 |};
                {| TimestampTag.relative := true; TimestampTag.intervalMs := 30000 |}]
               {| TimestampTag.intervals := [(1%positive, 1000%Q)];
                  TimestampTag.nextId := 2 |}))
     = [(4%positive, 30000%Q); (1%positive, 1000%Q)].
Proof.
  assert (Hwf : TimestampTag.wellFormed
                  {| TimestampTag.intervals := [(1%positive, 1000%Q)];
                     TimestampTag.nextId := 2 |}).
  { repeat constructor. }
  split; [exact Hwf|].
  destruct (proj1 (auto_refresh_never_leaks_an_interval
                     {| TimestampTag.relative := true; TimestampTag.intervalMs := 15000 |}
                     [{| TimestampTag.relative := true; TimestampTag.intervalMs := 5000 |};
                      {| TimestampTag.relative := false; TimestampTag.intervalMs := 5000 |};
                      {| TimestampTag.relative := true; TimestampTag.intervalMs := 30000 |}]
                     _ Hwf) eq_refl) as (id & Hid & Hlive).
  rewrite Hlive. vm_compute in Hid. injection Hid as <-. reflexivity.
Defined.
